(** * The chunked summarisation pipeline of review.py

    A shallow embedding of [summarize_chunk_wrapper],
    [summarize_chunk_with_retry], [summarize_text_parallel] and
    [generate_final_summary], followed by the properties the
    specification states about them.

    The network is an oracle: for every request the code sends, the
    world says what the block [client.post; raise_for_status; json]
    did, either a raised exception or the decoded JSON value.  Logging
    has no effect on any result and is left out; [len(...)] calls that
    occur inside log messages are kept, because they can raise. *)

From Equations Require Import Equations.
From stdpp Require Import base list strings pretty gmap.
From Stdlib Require Import ZArith Lia.

Set Warnings "-register-all".

Open Scope Z_scope.

(** ** Python values and exceptions *)

(** What [response.json()] can return, and so every value the pipeline
    handles.  Only the zero test of a number matters to the code, so
    numbers are integers. *)
Inductive json :=
| JNull
| JBool (b : bool)
| JNum (z : Z)
| JStr (s : string)
| JArr (items : list json)
| JObj (fields : list (string * json)).

Definition pyval := json.

(** The exception classes the code names in its [except] clauses, most
    specific first.  [Exception] stands for every exception that is not
    an [httpx.HTTPError]. *)
Inductive exn_class :=
| TimeoutException
| ConnectError
| HTTPError
| Exception.

(** What the code observes of an exception object [e]: its class,
    [str(e)], and [e.response.status_code] when [e] carries a response. *)
Record exn := mk_exn {
  exn_isa : exn_class;
  exn_str : string;
  exn_status_code : option Z
}.

Definition isinstance (e : exn) (c : exn_class) : bool :=
  match c, exn_isa e with
  | Exception, _ => true
  | HTTPError, (TimeoutException | ConnectError | HTTPError) => true
  | TimeoutException, TimeoutException => true
  | ConnectError, ConnectError => true
  | _, _ => false
  end.

Inductive result (A : Type) :=
| Ok (a : A)
| Raise (e : exn).
Arguments Ok {A} a.
Arguments Raise {A} e.

#[global] Instance result_ret : MRet result := fun A a => Ok a.
#[global] Instance result_bind : MBind result := fun A B f m =>
  match m with
  | Ok a => f a
  | Raise e => Raise e
  end.

(** [try: body / except ... as e: handler e]. *)
Definition try_except {A} (body : result A) (handler : exn -> result A)
  : result A :=
  match body with
  | Ok a => Ok a
  | Raise e => handler e
  end.

(** Exceptions the interpreter raises.  The wording of their messages
    is CPython's; no property below depends on it. *)
Definition KeyError (key : string) : exn :=
  mk_exn Exception ("'" +:+ key +:+ "'") None.
Definition TypeError (msg : string) : exn := mk_exn Exception msg None.
Definition AttributeError (msg : string) : exn := mk_exn Exception msg None.

Definition type_name (v : pyval) : string :=
  match v with
  | JNull => "NoneType"
  | JBool _ => "bool"
  | JNum _ => "int"
  | JStr _ => "str"
  | JArr _ => "list"
  | JObj _ => "dict"
  end.

(** Lookup in a decoded object; the keys of a [dict] are distinct. *)
Fixpoint dict_get (fields : list (string * json)) (key : string)
  : option json :=
  match fields with
  | [] => None
  | (k, v) :: rest => if String.eqb k key then Some v else dict_get rest key
  end.

(** [v[key]] for a string [key]. *)
Definition getitem (v : pyval) (key : string) : result pyval :=
  match v with
  | JObj fields =>
      match dict_get fields key with
      | Some x => Ok x
      | None => Raise (KeyError key)
      end
  | JArr _ => Raise (TypeError "list indices must be integers or slices, not str")
  | JStr _ => Raise (TypeError "string indices must be integers, not 'str'")
  | _ => Raise (TypeError ("'" +:+ type_name v +:+ "' object is not subscriptable"))
  end.

(** [len(v)]. *)
Definition py_len (v : pyval) : result nat :=
  match v with
  | JStr s => Ok (String.length s)
  | JArr items => Ok (length items)
  | JObj fields => Ok (length fields)
  | _ => Raise (TypeError ("object of type '" +:+ type_name v +:+ "' has no len()"))
  end.

(** Truth value, as tested by [not v]. *)
Definition truthy (v : pyval) : bool :=
  match v with
  | JNull => false
  | JBool b => b
  | JNum z => negb (z =? 0)
  | JStr s => negb (String.eqb s "")
  | JArr items => match items with [] => false | _ => true end
  | JObj fields => match fields with [] => false | _ => true end
  end.

(** [e.response.status_code]. *)
Definition response_status_code (e : exn) : result Z :=
  match exn_status_code e with
  | Some code => Ok code
  | None => Raise (AttributeError "object has no attribute 'response'")
  end.

Definition startswith (s p : string) : bool := String.prefix p s.

(** [isinstance(v, str) and v.startswith("Error")]. *)
Definition is_error_string (v : pyval) : bool :=
  match v with
  | JStr s => startswith s "Error"
  | _ => false
  end.

Definition nl : string := String (Ascii.ascii_of_nat 10) "".

(** ** Constants *)

Definition OLLAMA_MODEL : string := "gemma3:27b-16k".
Definition CHUNK_SIZE : Z := 40000.
Definition CHUNK_OVERLAP : Z := 100.
Definition MAX_RETRIES : Z := 2.
Definition RETRY_BACKOFF_BASE : Z := 5.

(** ** Requests and the backend *)

Record message := mk_message { role : string; content : string }.

Record payload := mk_payload {
  model : string;
  messages : list message;
  stream : bool
}.

(** The outcome of one [client.post] / [raise_for_status] /
    [response.json()] sequence. *)
Definition reply := result json.

(** ** summarize_chunk_wrapper *)

Definition chunk_messages (chunk : string) : list message :=
  [ mk_message "system"
      "Extract only technical details. No citations or references.";
    mk_message "user" ("Extract technical content: " +:+ chunk) ].

Definition chunk_payload (chunk : string) : payload :=
  mk_payload OLLAMA_MODEL (chunk_messages chunk) false.

Definition summarize_chunk_wrapper
  (chunk : string) (chunk_id total_chunks : nat) (r : reply) : result pyval :=
  try_except
    (try_except
       (response_data ← r;
        message ← getitem response_data "message";
        summary ← getitem message "content";
        _ ← py_len summary;
        Ok summary)
       (fun e =>
          if isinstance e TimeoutException then
            Ok (JStr ("Error in chunk " +:+ pretty chunk_id +:+
                      ": Request timed out. Consider increasing the timeout or reducing chunk size."))
          else if isinstance e ConnectError then
            Ok (JStr ("Error in chunk " +:+ pretty chunk_id +:+
                      ": Could not connect to Ollama API. Check if Ollama is running correctly."))
          else if isinstance e HTTPError then
            code ← response_status_code e;
            Ok (JStr ("Error in chunk " +:+ pretty chunk_id +:+
                      ": HTTP error from Ollama API. Status code: " +:+ pretty code))
          else Raise e))
    (fun e =>
       Ok (JStr ("Error processing chunk " +:+ pretty chunk_id +:+ ": " +:+ exn_str e))).

(** ** summarize_chunk_with_retry *)

(** One run of the retry loop: the value returned, how many times the
    wrapped operation was awaited, and the [asyncio.sleep] durations in
    the order they were slept. *)
Record retry_run := mk_retry_run {
  answer : pyval;
  invocations : nat;
  sleeps : list Z
}.

Section chunk_retry.
(** [wrapper n] is what the [n]-th await (from 0) of
    [summarize_chunk_wrapper(chunk, chunk_id, total_chunks)] does. *)
Variable wrapper : nat -> result pyval.
Variable chunk_id : nat.
Variable max_retries : Z.

(** The [while retries <= max_retries] loop, entered with [retries]
    after [calls] awaits and the sleeps [slept]. *)
Equations? retry_loop (retries : Z) (calls : nat) (slept : list Z)
  : retry_run by wf (Z.to_nat (max_retries + 1 - retries)) lt :=
  retry_loop retries calls slept with decide (retries <= max_retries) := {
  | left _ :=
      match wrapper calls with
      | Ok result =>
          if is_error_string result then
            if decide (retries + 1 <= max_retries) then
              retry_loop (retries + 1) (S calls)
                (slept ++ [RETRY_BACKOFF_BASE * 2 ^ (retries + 1 - 1)])
            else mk_retry_run result (S calls) slept
          else mk_retry_run result (S calls) slept
      | Raise e =>
          if decide (retries + 1 <= max_retries) then
            retry_loop (retries + 1) (S calls)
              (slept ++ [RETRY_BACKOFF_BASE * 2 ^ (retries + 1 - 1)])
          else
            mk_retry_run
              (JStr ("Error processing chunk " +:+ pretty chunk_id +:+
                     " after " +:+ pretty (max_retries + 1) +:+
                     " attempts: " +:+ exn_str e))
              (S calls) slept
      end;
  | right _ :=
      mk_retry_run
        (JStr ("Error: Unexpected end of retry loop for chunk " +:+
               pretty chunk_id))
        calls slept }.
Proof. all: lia. Qed.

Definition summarize_chunk_with_retry : retry_run := retry_loop 0 0%nat [].
End chunk_retry.


(** ** generate_final_summary *)

Definition final_system_content : string :=
  "You are a technical documentation writer. Focus ONLY on technical details, implementations, and results. DO NOT mention papers, citations, or authors.".

(** The text of the user message before and after the interpolated
    [combined_chunk_summaries], line breaks and indentation included. *)
Definition final_user_prefix : string :=
"Create a comprehensive technical document focusing ONLY on the implementation and results.
            Structure the content into these sections:

            1. System Architecture
            2. Technical Implementation
            3. Infrastructure & Setup
            4. Performance Analysis
            5. Optimization Techniques

            CRITICAL INSTRUCTIONS:
            - Focus ONLY on technical details and implementations
            - Include specific numbers, metrics, and measurements
            - Explain HOW things work
            - DO NOT include any citations or references
            - DO NOT mention other research or related work
            - Some sections may contain error messages - please ignore these and work with available information

            Content to organize:
            ".

Definition final_user_suffix : string :=
"
            ".

Definition final_messages (combined_chunk_summaries : string) : list message :=
  [ mk_message "system" final_system_content;
    mk_message "user"
      (final_user_prefix +:+ combined_chunk_summaries +:+ final_user_suffix) ].

Definition final_payload (combined_chunk_summaries : string) : payload :=
  mk_payload OLLAMA_MODEL (final_messages combined_chunk_summaries) false.

(** One run of [generate_final_summary]: what it returned or raised, the
    payloads posted, and the sleeps between attempts. *)
Record final_run := mk_final_run {
  final_answer : result pyval;
  requests : list payload;
  final_sleeps : list Z
}.

Section final_summary.
(** [backend n] is the outcome of the [n]-th post (from 0). *)
Variable backend : nat -> reply.
Variable combined_chunk_summaries : string.

(** The code after the loop, reached by [break] with the decoded body or
    by the loop condition turning false with [final_response] still
    [None]. *)
Definition after_final_loop (final_response : pyval) : result pyval :=
  if negb (truthy final_response) then
    Ok (JStr "Failed to generate final summary. Please check the logs for details.")
  else
    message ← getitem final_response "message";
    logged ← getitem message "content";
    _ ← py_len logged;
    message ← getitem final_response "message";
    getitem message "content".

Equations? final_loop (retry_count : Z) (sent : list payload) (slept : list Z)
  : final_run by wf (Z.to_nat (MAX_RETRIES + 1 - retry_count)) lt :=
  final_loop retry_count sent slept with decide (retry_count <= MAX_RETRIES) := {
  | left _ :=
      match backend (length sent) with
      | Ok final_response =>
          mk_final_run (after_final_loop final_response)
            (sent ++ [final_payload combined_chunk_summaries]) slept
      | Raise e =>
          if isinstance e HTTPError then
            if decide (retry_count + 1 <= MAX_RETRIES) then
              final_loop (retry_count + 1)
                (sent ++ [final_payload combined_chunk_summaries])
                (slept ++ [10 * 2 ^ (retry_count + 1 - 1)])
            else
              mk_final_run
                (Ok (JStr "Failed to generate final summary after multiple attempts. Please check the logs for details."))
                (sent ++ [final_payload combined_chunk_summaries]) slept
          else
            mk_final_run
              (Ok (JStr "Failed to generate final summary due to an unexpected error. Please check the logs for details."))
              (sent ++ [final_payload combined_chunk_summaries]) slept
      end;
  | right _ := mk_final_run (after_final_loop JNull) sent slept }.
Proof. all: lia. Qed.

Definition generate_final_summary : final_run := final_loop 0 [] [].
End final_summary.

(** ** summarize_text_parallel *)

(** The inference backend as the pipeline meets it.  Chunk tasks share
    no state, so the backend's behaviour towards the task of chunk
    [chunk_id] is its own sequence of replies; each reply answers the
    payload that the task posted. *)
Record world := mk_world {
  chunk_reply : nat -> payload -> nat -> reply;
  final_reply : nat -> reply
}.

(** One await of [summarize_chunk_wrapper(chunk, chunk_id,
    total_chunks)]: lines 329-348 build the payload from the chunk and
    post it, and [summarize_chunk_wrapper] goes on from the outcome of
    that request.  [post request n] is the outcome of the [n]-th post
    of the task. *)
Definition summarize_chunk_call (post : payload -> nat -> reply)
  (chunk : string) (chunk_id total_chunks : nat) (n : nat) : result pyval :=
  summarize_chunk_wrapper chunk chunk_id total_chunks
    (post (chunk_payload chunk) n).

(** [asyncio.gather] over the task list with [return_exceptions=True].
    The result list has one slot per task; a task that finishes puts
    its result, or the exception it raised, into the slot of its
    position.  [order] lists the tasks in the order they finish.
    [gather] returns once every slot is filled; [None] says that
    [order] leaves a task unfinished. *)
Definition gather {A} (order : list nat) (tasks : list A) : option (list A) :=
  mapM id
    (foldl
       (fun slots i =>
          match tasks !! i with
          | Some r => <[i := Some r]> slots
          | None => slots
          end)
       (replicate (length tasks) None) order).

(** Every task [0 .. n-1] occurs in the completion order. *)
Definition finishes_all (order : list nat) (n : nat) : bool :=
  forallb (fun i => existsb (Nat.eqb i) order) (seq 0 n).

(** What the pipeline did: the value returned or the exception raised,
    the retry run of every chunk task by position, and the run of the
    final synthesis when it was started. *)
Record pipeline_run := mk_pipeline_run {
  returned : result pyval;
  chunk_runs : list retry_run;
  synthesis : option final_run
}.

Section pipeline.
(** [RecursiveCharacterTextSplitter(chunk_size=CHUNK_SIZE,
    chunk_overlap=CHUNK_OVERLAP, separators=...).split_text], a library
    function. *)
Variable split_text : string -> list string.
(** [str(v)] for a value [v] that is not a string. *)
Variable repr : pyval -> string.
Variable w : world.

(** [f"{v}"]. *)
Definition format_value (v : pyval) : string :=
  match v with
  | JStr s => s
  | _ => repr v
  end.

(** The task list of lines 193-196: the retry run of each chunk, with
    [chunk_id = i + 1]. *)
Definition tasks (chunks : list string) : list retry_run :=
  imap
    (fun i chunk =>
       summarize_chunk_with_retry
         (summarize_chunk_call (chunk_reply w (i + 1)%nat) chunk (i + 1)
            (length chunks))
         (i + 1) MAX_RETRIES)
    chunks.

(** Lines 202-207: an exception object in the gathered list becomes an
    error string, any other result is kept. *)
Definition processed_summaries (gathered : list (result pyval)) : list pyval :=
  imap
    (fun i result =>
       match result with
       | Raise e =>
           JStr ("Error processing chunk " +:+ pretty (i + 1)%nat +:+ ": " +:+
                 exn_str e)
       | Ok v => v
       end)
    gathered.

(** Lines 193-209.  A chunk task returns what its retry loop returns;
    the loop catches every exception, so no slot holds one. *)
Definition dispatch (order : list nat) (chunks : list string)
  : option (list pyval) :=
  gathered ← gather order (map (fun run => Ok (answer run)) (tasks chunks));
  Some (processed_summaries gathered).

Definition successful_summaries (summaries : list pyval) : list pyval :=
  List.filter (fun s => negb (is_error_string s)) summaries.

(** The generator of lines 224-226: one labelled section per summary. *)
Definition sections (summaries : list pyval) : list string :=
  imap
    (fun i summary =>
       "Section " +:+ pretty (i + 1)%nat +:+ ":" +:+ nl +:+
       format_value summary)
    summaries.

Definition combined_chunk_summaries (summaries : list pyval) : string :=
  String.concat (nl +:+ nl) (sections summaries).

(** Lines 217-231. *)
Definition aggregate (summaries : list pyval) : result pyval * option final_run :=
  match successful_summaries summaries with
  | [] =>
      (Ok (JStr "No meaningful summary could be generated. All chunks failed processing."),
       None)
  | _ :: _ =>
      let run :=
        generate_final_summary (final_reply w)
          (combined_chunk_summaries summaries) in
      (final_answer run, Some run)
  end.

(** Neither [gather] with [return_exceptions=True] nor the loop over its
    results raises, so the handler of line 211 is never entered. *)
Definition summarize_text_parallel (order : list nat) (text : string)
  : option pipeline_run :=
  let chunks := split_text text in
  summaries ← dispatch order chunks;
  let '(value, run) := aggregate summaries in
  Some (mk_pipeline_run value (tasks chunks) run).
End pipeline.

(** ** download_pdf *)

(** [needle in hay] for strings. *)
Fixpoint contains (hay needle : string) : bool :=
  String.prefix needle hay ||
  match hay with
  | EmptyString => false
  | String _ rest => contains rest needle
  end.

(** What the code reads of the response to [client.get(url)]:
    [response.headers.get("Content-Type")] and [response.content]. *)
Record http_response := mk_http_response {
  content_type : option string;
  response_content : string
}.

(** What opening the file for writing and writing it did.  A failure
    raises and leaves the file absent or with some content. *)
Inductive write_outcome :=
| Written
| WriteFailed (e : exn) (residue : option string).

(** One run of [download_pdf]: the path returned or [None], the files
    on disk afterwards, and the URLs requested. *)
Record download_run := mk_download_run {
  pdf_path : option string;
  files_after : gmap string string;
  fetched : list string
}.

Section download.
(** [get url] is the outcome of [client.get(url)] followed by
    [raise_for_status()]. *)
Variable get : string -> result http_response.
Variable disk : write_outcome.

(** Both [except] clauses return [None], so every exception raised in
    the [try] block ends the call with [None]. *)
Definition download_pdf (files : gmap string string) (url : string)
  : download_run :=
  if negb (startswith url "https://arxiv.org/pdf/") then
    mk_download_run None files []
  else
    match get url with
    | Raise e => mk_download_run None files [url]
    | Ok response =>
        if negb (contains (default "" (content_type response)) "application/pdf")
        then mk_download_run None files [url]
        else
          let pdf_filename := "arxiv_paper.pdf" in
          match disk with
          | Written =>
              mk_download_run (Some pdf_filename)
                (<[pdf_filename := response_content response]> files) [url]
          | WriteFailed e None =>
              mk_download_run None (delete pdf_filename files) [url]
          | WriteFailed e (Some residue) =>
              mk_download_run None (<[pdf_filename := residue]> files) [url]
          end
    end.
End download.

(** ** extract_text_from_pdf *)

(** The generator [page.get_text("text") for page in doc], consumed
    page by page: the first page that raises ends it. *)
Fixpoint get_texts (pages : list (result string)) : result (list string) :=
  match pages with
  | [] => Ok []
  | page :: rest =>
      text ← page;
      texts ← get_texts rest;
      Ok (text :: texts)
  end.

Section extract.
(** [fitz.open] on a path whose file holds the given content, or is
    absent: it raises, or yields the pages, each with the outcome of
    its [get_text]. *)
Variable fitz_open : option string -> result (list (result string)).

Definition extract_text_from_pdf (files : gmap string string)
  (pdf_path : string) : string :=
  match
    (pages ← fitz_open (files !! pdf_path);
     texts ← get_texts pages;
     Ok (String.concat nl texts))
  with
  | Ok text => text
  | Raise e => ""
  end.
End extract.

(** ** The endpoints *)

Definition health_check : json :=
  JObj [("status", JStr "ok"); ("message", JStr "FastAPI backend is running!")].

(** One run of [summarize_arxiv]: the response, the download it made,
    and the run of [summarize_text_parallel] when it was called. *)
Record endpoint_run := mk_endpoint_run {
  response : json;
  download : download_run;
  pipeline_of : option pipeline_run
}.

Section endpoint.
Variable split_text : string -> list string.
Variable repr : pyval -> string.
Variable fitz_open : option string -> result (list (result string)).
Variable get : string -> result http_response.
Variable disk : write_outcome.
Variable w : world.

(** [download_pdf] and [extract_text_from_pdf] raise nothing; an
    exception out of [summarize_text_parallel] is caught by the
    handler of line 69.  [None] is a run in which [gather] never
    returns. *)
Definition summarize_arxiv (order : list nat) (files : gmap string string)
  (url : string) : option endpoint_run :=
  let downloaded := download_pdf get disk files url in
  match pdf_path downloaded with
  | None =>
      Some (mk_endpoint_run
              (JObj [("error", JStr "Failed to download PDF. Check the URL.")])
              downloaded None)
  | Some path =>
      if String.eqb path "" then
        Some (mk_endpoint_run
                (JObj [("error", JStr "Failed to download PDF. Check the URL.")])
                downloaded None)
      else
        let text := extract_text_from_pdf fitz_open (files_after downloaded) path in
        if String.eqb text "" then
          Some (mk_endpoint_run
                  (JObj [("error", JStr "No text extracted from PDF")])
                  downloaded None)
        else
          run ← summarize_text_parallel split_text repr w order text;
          Some (mk_endpoint_run
                  match returned run with
                  | Ok summary => JObj [("summary", summary)]
                  | Raise e => JObj [("error", JStr "Failed to process PDF")]
                  end
                  downloaded (Some run))
  end.
End endpoint.

(** ** Vocabulary of the properties *)

(** An attempt fails when it raises or returns an error string. *)
Definition failed (outcome : result pyval) : bool :=
  match outcome with
  | Ok v => is_error_string v
  | Raise _ => true
  end.

(** What the chunk retry loop returns for its last attempt: the value
    the attempt returned, or the message built from the exception it
    raised. *)
Definition terminal_answer (chunk_id : nat) (max_retries : Z)
  (outcome : result pyval) : pyval :=
  match outcome with
  | Ok v => v
  | Raise e =>
      JStr ("Error processing chunk " +:+ pretty chunk_id +:+
            " after " +:+ pretty (max_retries + 1) +:+
            " attempts: " +:+ exn_str e)
  end.

(** The sleeps of [count] consecutive retries, the first of them taken
    when [retries] attempts had failed before. *)
Fixpoint backoffs (base retries : Z) (count : nat) : list Z :=
  match count with
  | O => []
  | S count' => base * 2 ^ (retries + 1 - 1) :: backoffs base (retries + 1) count'
  end.

(** What [generate_final_summary] returns for its last attempt. *)
Definition final_terminal_answer (outcome : reply) : result pyval :=
  match outcome with
  | Ok body => after_final_loop body
  | Raise e =>
      if isinstance e HTTPError then
        Ok (JStr "Failed to generate final summary after multiple attempts. Please check the logs for details.")
      else
        Ok (JStr "Failed to generate final summary due to an unexpected error. Please check the logs for details.")
  end.

(** The attempt raised an [httpx.HTTPError]. *)
Definition http_error (outcome : reply) : bool :=
  match outcome with
  | Ok _ => false
  | Raise e => isinstance e HTTPError
  end.

(** ** Scenarios *)

(** An operation that raises at its first two awaits and succeeds at
    the third. *)
Definition flaky_twice (n : nat) : result pyval :=
  if (n <? 2)%nat then Raise (mk_exn Exception "boom" None)
  else Ok (JStr "fine").

Definition always_raises (n : nat) : result pyval :=
  Raise (mk_exn Exception "boom" None).

(** A summary of a text about error handling. *)
Definition legitimate_summary : string :=
  "Error correction uses a Reed-Solomon code over 255-byte blocks.".

(** A chunk operation whose every reply is that summary. *)
Definition always_legitimate (n : nat) : result pyval :=
  Ok (JStr legitimate_summary).

(** A splitter to stand for the library's in the scenarios: it answers
    a fixed chunk list. *)
Definition fixed_split (chunks : list string) (text : string) : list string :=
  chunks.

Definition repr_unused (v : pyval) : string := "".

Definition body_with_content (s : string) : json :=
  JObj [("message", JObj [("content", JStr s)])].

(** Three chunks; the backend times out on every request for the
    second and answers the others. *)
Definition second_chunk_times_out : world :=
  mk_world
    (fun chunk_id request n =>
       if (chunk_id =? 2)%nat then Raise (mk_exn TimeoutException "timed out" None)
       else Ok (body_with_content ("summary " +:+ pretty chunk_id)))
    (fun n => Ok (body_with_content "final document")).

(** The backend refuses every connection. *)
Definition backend_down : world :=
  mk_world
    (fun chunk_id request n =>
       Raise (mk_exn ConnectError "connection refused" None))
    (fun n => Raise (mk_exn ConnectError "connection refused" None)).

(** The chunk call succeeds; the final call is answered with status 200
    and a JSON object that has no "message". *)
Definition final_body_without_message : world :=
  mk_world
    (fun chunk_id request n => Ok (body_with_content "summary"))
    (fun n => Ok (JObj [("error", JStr "model not loaded")])).

(** [response.json()] fails on the body of the final call. *)
Definition json_decode_error : exn :=
  mk_exn Exception "Expecting value: line 1 column 1 (char 0)" None.

(** An arXiv address, a server that answers it with a PDF, and two
    documents as the PDF library reads them. *)
Definition arxiv_url : string := "https://arxiv.org/pdf/2401.02385".

Definition pdf_server (url : string) : result http_response :=
  Ok (mk_http_response (Some "application/pdf") "%PDF-1.5").

Definition two_blank_pages (file : option string)
  : result (list (result string)) :=
  Ok [Ok ""; Ok ""].

Definition one_page (file : option string) : result (list (result string)) :=
  Ok [Ok "the only chunk"].

(** Every call is answered at the first attempt. *)
Definition backend_up : world :=
  mk_world
    (fun chunk_id request n => Ok (body_with_content "summary"))
    (fun n => Ok (body_with_content "final document")).

(** A reply in the shape the backend gives it. *)
Definition ollama_body (s : string) : json :=
  JObj [("model", JStr OLLAMA_MODEL);
        ("created_at", JStr "2025-03-14T10:21:07.1382Z");
        ("message", JObj [("role", JStr "assistant"); ("content", JStr s)]);
        ("done_reason", JStr "stop");
        ("done", JBool true)].

(** The content of the user message of a chunk request. *)
Definition user_content (request : payload) : string :=
  match messages request with
  | [_; user] => content user
  | _ => ""
  end.

(** A backend that answers every chunk request with the user message
    it was sent. *)
Definition echo_backend : world :=
  mk_world
    (fun chunk_id request n => Ok (ollama_body (user_content request)))
    (fun n => Ok (ollama_body "final document")).

(** The final call fails once with a server error, then gets a body
    that is not JSON. *)
Definition server_error_then_bad_json (n : nat) : reply :=
  if (n <? 1)%nat then
    Raise (mk_exn HTTPError "Server error '503 Service Unavailable'" (Some 503))
  else Raise json_decode_error.

(** * Properties *)

(** ** The chunk retry loop *)

Section chunk_retry_facts.
Variable wrapper : nat -> result pyval.
Variable chunk_id : nat.
Variable max_retries : Z.

Local Abbreviation loop := (retry_loop wrapper chunk_id max_retries).

Lemma retry_loop_exit retries calls slept :
  ~ retries <= max_retries ->
  loop retries calls slept =
  mk_retry_run
    (JStr ("Error: Unexpected end of retry loop for chunk " +:+ pretty chunk_id))
    calls slept.
Proof.
  intros Hgt. rewrite retry_loop_equation_1.
  destruct (decide (retries <= max_retries)) as [Hle | Hgt']; [lia | reflexivity].
Qed.

Lemma retry_loop_success retries calls slept v :
  retries <= max_retries ->
  wrapper calls = Ok v ->
  is_error_string v = false ->
  loop retries calls slept = mk_retry_run v (S calls) slept.
Proof.
  intros Hle Hw Hv. rewrite retry_loop_equation_1.
  destruct (decide (retries <= max_retries)) as [Hle' | Hgt]; [| lia].
  cbn. rewrite Hw, Hv. reflexivity.
Qed.

Lemma retry_loop_retry retries calls slept :
  retries + 1 <= max_retries ->
  failed (wrapper calls) = true ->
  loop retries calls slept =
  loop (retries + 1) (S calls)
    (slept ++ [RETRY_BACKOFF_BASE * 2 ^ (retries + 1 - 1)]).
Proof.
  intros Hle Hf. rewrite (retry_loop_equation_1 _ _ _ retries).
  destruct (decide (retries <= max_retries)) as [Hle' | Hgt]; [| lia].
  cbn. destruct (wrapper calls) as [v | e]; cbn in Hf.
  - rewrite Hf. destruct (decide (retries + 1 <= max_retries)); [reflexivity | lia].
  - destruct (decide (retries + 1 <= max_retries)); [reflexivity | lia].
Qed.

Lemma retry_loop_exhausted retries calls slept :
  retries = max_retries ->
  failed (wrapper calls) = true ->
  loop retries calls slept =
  mk_retry_run (terminal_answer chunk_id max_retries (wrapper calls))
    (S calls) slept.
Proof.
  intros -> Hf. rewrite retry_loop_equation_1.
  destruct (decide (max_retries <= max_retries)) as [Hle' | Hgt]; [| lia].
  cbn. destruct (wrapper calls) as [v | e]; cbn in Hf |- *.
  - rewrite Hf. destruct (decide (max_retries + 1 <= max_retries)); [lia | reflexivity].
  - destruct (decide (max_retries + 1 <= max_retries)); [lia | reflexivity].
Qed.

(** [count] failed attempts in a row, with budget left after each, are
    [count] turns of the loop. *)
Lemma retry_loop_skip count : forall retries calls slept,
  (forall n, (calls <= n < calls + count)%nat -> failed (wrapper n) = true) ->
  retries + Z.of_nat count <= max_retries ->
  loop retries calls slept =
  loop (retries + Z.of_nat count) (calls + count)%nat
    (slept ++ backoffs RETRY_BACKOFF_BASE retries count).
Proof.
  induction count as [| count IH]; intros retries calls slept Hfail Hle.
  - cbn [backoffs]. rewrite app_nil_r, Z.add_0_r, Nat.add_0_r. reflexivity.
  - rewrite retry_loop_retry by (try apply Hfail; lia).
    rewrite IH by (try (intros n Hn; apply Hfail); lia).
    cbn [backoffs]. rewrite <- app_assoc. cbn [app].
    f_equal; lia.
Qed.

Lemma length_backoffs base retries count :
  length (backoffs base retries count) = count.
Proof.
  revert retries. induction count as [| count IH]; intros retries; cbn; [| rewrite IH]; reflexivity.
Qed.

(** The loop awaits the operation at least once when it is entered. *)
Lemma retry_loop_invocations_lower retries calls slept :
  retries <= max_retries ->
  (calls < invocations (loop retries calls slept))%nat.
Proof.
  remember (Z.to_nat (max_retries - retries)) as fuel eqn:Hfuel.
  revert retries calls slept Hfuel.
  induction fuel as [| fuel IH]; intros retries calls slept Hfuel Hle.
  - assert (retries = max_retries) as Heq by lia.
    destruct (failed (wrapper calls)) eqn:Hf.
    + rewrite retry_loop_exhausted by assumption. cbn. lia.
    + destruct (wrapper calls) as [v | e] eqn:Hw; [| discriminate].
      rewrite (retry_loop_success _ _ _ v) by assumption. cbn. lia.
  - destruct (failed (wrapper calls)) eqn:Hf.
    + rewrite retry_loop_retry by (try assumption; lia).
      specialize (IH (retries + 1) (S calls)
                    (slept ++ [RETRY_BACKOFF_BASE * 2 ^ (retries + 1 - 1)])).
      lapply IH; [| lia]. intros IH'. specialize (IH' ltac:(lia)). lia.
    + destruct (wrapper calls) as [v | e] eqn:Hw; [| discriminate].
      rewrite (retry_loop_success _ _ _ v) by assumption. cbn. lia.
Qed.

(** Every run of the loop is a row of failed attempts, each followed by
    its backoff sleep, and one last attempt that succeeds or finds the
    budget used up. *)
Lemma retry_loop_run retries calls slept :
  retries <= max_retries ->
  exists count : nat,
    (forall n, (calls <= n < calls + count)%nat -> failed (wrapper n) = true) /\
    retries + Z.of_nat count <= max_retries /\
    (failed (wrapper (calls + count)) = false \/
     retries + Z.of_nat count = max_retries) /\
    loop retries calls slept =
    mk_retry_run
      (terminal_answer chunk_id max_retries (wrapper (calls + count)))
      (S (calls + count))
      (slept ++ backoffs RETRY_BACKOFF_BASE retries count).
Proof.
  remember (Z.to_nat (max_retries - retries)) as fuel eqn:Hfuel.
  revert retries calls slept Hfuel.
  induction fuel as [| fuel IH]; intros retries calls slept Hfuel Hle.
  - exists 0%nat. rewrite Nat.add_0_r, Z.add_0_r, app_nil_r.
    repeat split; [lia | lia | right; lia |].
    destruct (failed (wrapper calls)) eqn:Hf.
    + apply retry_loop_exhausted; [lia | assumption].
    + destruct (wrapper calls) as [v | e] eqn:Hw; [| discriminate].
      apply retry_loop_success; assumption.
  - destruct (failed (wrapper calls)) eqn:Hf.
    + destruct (IH (retries + 1) (S calls)
                  (slept ++ [RETRY_BACKOFF_BASE * 2 ^ (retries + 1 - 1)]))
        as (count & Hfail & Hbudget & Hlast & Hrun); [lia | lia |].
      exists (S count).
      replace (calls + S count)%nat with (S calls + count)%nat by lia.
      repeat split.
      * intros n Hn. destruct (decide (n = calls)) as [-> | Hne];
          [assumption | apply Hfail; lia].
      * lia.
      * destruct Hlast as [Hlast | Hlast]; [left; assumption | right; lia].
      * rewrite retry_loop_retry by (try assumption; lia).
        rewrite Hrun. cbn [backoffs]. rewrite <- app_assoc. reflexivity.
    + exists 0%nat. rewrite Nat.add_0_r, Z.add_0_r, app_nil_r.
      repeat split; [lia | lia | left; assumption |].
      destruct (wrapper calls) as [v | e] eqn:Hw; [| discriminate].
      apply retry_loop_success; assumption.
Qed.
End chunk_retry_facts.

Lemma terminal_answer_failed chunk_id max_retries outcome :
  failed outcome = true ->
  is_error_string (terminal_answer chunk_id max_retries outcome) = true.
Proof. destruct outcome as [v | e]; intros Hf; [exact Hf | reflexivity]. Qed.

(** The number of attempts and the sleeps between them depend only on
    which attempts fail, not on how they fail. *)
Lemma retry_loop_same_control wrapper1 wrapper2 id1 id2 max_retries :
  (forall n, failed (wrapper1 n) = failed (wrapper2 n)) ->
  forall retries calls slept,
    let run1 := retry_loop wrapper1 id1 max_retries retries calls slept in
    let run2 := retry_loop wrapper2 id2 max_retries retries calls slept in
    invocations run1 = invocations run2 /\ sleeps run1 = sleeps run2.
Proof.
  intros Hsame retries calls slept run1 run2. subst run1 run2.
  destruct (decide (retries <= max_retries)) as [Hle | Hgt].
  - destruct (retry_loop_run wrapper1 id1 max_retries retries calls slept Hle)
      as (c1 & Hf1 & Hb1 & Hl1 & ->).
    destruct (retry_loop_run wrapper2 id2 max_retries retries calls slept Hle)
      as (c2 & Hf2 & Hb2 & Hl2 & ->).
    assert (c1 = c2) as ->; [| split; reflexivity].
    destruct (Nat.lt_trichotomy c1 c2) as [Hlt | [Heq | Hlt]]; [| exact Heq |].
    + destruct Hl1 as [Hl1 | Hl1]; [| lia].
      rewrite Hsame, Hf2 in Hl1 by lia. discriminate.
    + destruct Hl2 as [Hl2 | Hl2]; [| lia].
      rewrite <- Hsame, Hf1 in Hl2 by lia. discriminate.
  - rewrite !retry_loop_exit by assumption. split; reflexivity.
Qed.

(** C1.  An operation that fails [k] times, by error string or by
    exception, and then succeeds is awaited exactly [k + 1] times when
    [k <= max_retries], and its success is returned.  An operation
    that fails at every attempt is awaited exactly [max_retries + 1]
    times, and the failure of the last attempt is returned: the error
    string itself, or the error string built from the last exception. *)
Theorem retry_until_success_or_exhaustion
  (wrapper : nat -> result pyval) (chunk_id : nat) (max_retries : Z) :
  let run := summarize_chunk_with_retry wrapper chunk_id max_retries in
  (forall (k : nat) (v : pyval),
     (forall n, (n < k)%nat -> failed (wrapper n) = true) ->
     wrapper k = Ok v ->
     is_error_string v = false ->
     Z.of_nat k <= max_retries ->
     answer run = v /\ invocations run = (k + 1)%nat) /\
  (0 <= max_retries ->
   (forall n, failed (wrapper n) = true) ->
   invocations run = Z.to_nat (max_retries + 1) /\
   answer run =
     terminal_answer chunk_id max_retries (wrapper (Z.to_nat max_retries)) /\
   is_error_string (answer run) = true).
Proof.
  intros run. subst run. unfold summarize_chunk_with_retry. split.
  - intros k v Hfail Hk Hv Hle.
    rewrite (retry_loop_skip wrapper chunk_id max_retries k 0 0%nat [])
      by (try (intros n Hn; apply Hfail); lia).
    rewrite (retry_loop_success _ _ _ _ _ _ v) by (try assumption; lia).
    cbn. split; [reflexivity | lia].
  - intros Hmax Hfail.
    rewrite (retry_loop_skip wrapper chunk_id max_retries
               (Z.to_nat max_retries) 0 0%nat [])
      by (try (intros n Hn; apply Hfail); lia).
    rewrite retry_loop_exhausted by (try apply Hfail; lia).
    cbn [answer invocations plus]. repeat split.
    + lia.
    + apply terminal_answer_failed, Hfail.
Qed.

Lemma retry_until_success_or_exhaustion_witness :
  (answer (summarize_chunk_with_retry flaky_twice 7 2) = JStr "fine" /\
   invocations (summarize_chunk_with_retry flaky_twice 7 2) = 3%nat) /\
  (invocations (summarize_chunk_with_retry always_raises 7 2) = 3%nat /\
   answer (summarize_chunk_with_retry always_raises 7 2) =
     JStr "Error processing chunk 7 after 3 attempts: boom").
Proof.
  split.
  - apply (proj1 (retry_until_success_or_exhaustion flaky_twice 7 2) 2%nat).
    + intros [| [| n]] Hn; [reflexivity | reflexivity | lia].
    + reflexivity.
    + reflexivity.
    + lia.
  - destruct (proj2 (retry_until_success_or_exhaustion always_raises 7 2))
      as (Hcount & Hanswer & _).
    + lia.
    + intros n. reflexivity.
    + split; [exact Hcount | exact Hanswer].
Defined.

(** C7.  A returned string that begins with "Error" counts as a failed
    attempt whatever else it says: with budget left the loop sleeps and
    awaits the operation again, with the budget used up the string is
    returned, and the aggregation step leaves it out of the successful
    summaries, so that a batch of such strings alone ends in the "no
    meaningful summary" sentinel. *)
Theorem error_prefix_is_soft_failure
  (wrapper : nat -> result pyval) (chunk_id : nat) (max_retries : Z)
  (k : nat) (s : string) :
  (forall n, (n < k)%nat -> failed (wrapper n) = true) ->
  wrapper k = Ok (JStr s) ->
  startswith s "Error" = true ->
  let run := summarize_chunk_with_retry wrapper chunk_id max_retries in
  (Z.of_nat k < max_retries ->
   run = retry_loop wrapper chunk_id max_retries (Z.of_nat (k + 1)) (k + 1)
           (backoffs RETRY_BACKOFF_BASE 0 (k + 1)) /\
   (k + 2 <= invocations run)%nat) /\
  (Z.of_nat k = max_retries ->
   answer run = JStr s /\ invocations run = (k + 1)%nat) /\
  (forall before after,
     successful_summaries (before ++ JStr s :: after) =
     successful_summaries (before ++ after)) /\
  (forall repr w,
     aggregate repr w [JStr s] =
     (Ok (JStr "No meaningful summary could be generated. All chunks failed processing."),
      None)).
Proof.
  intros Hfail Hk Hs run. subst run. unfold summarize_chunk_with_retry.
  assert (failed (wrapper k) = true) as Hfk by (rewrite Hk; exact Hs).
  repeat split.
  - rewrite (retry_loop_skip wrapper chunk_id max_retries (k + 1) 0 0%nat [])
      by (try (intros n Hn; destruct (decide (n = k)) as [-> | Hne];
               [exact Hfk | apply Hfail; lia]); lia).
    reflexivity.
  - rewrite (retry_loop_skip wrapper chunk_id max_retries (k + 1) 0 0%nat [])
      by (try (intros n Hn; destruct (decide (n = k)) as [-> | Hne];
               [exact Hfk | apply Hfail; lia]); lia).
    pose proof (retry_loop_invocations_lower wrapper chunk_id max_retries
                  (0 + Z.of_nat (k + 1)) (0 + (k + 1))
                  ([] ++ backoffs RETRY_BACKOFF_BASE 0 (k + 1))) as Hlow.
    lia.
  - rewrite (retry_loop_skip wrapper chunk_id max_retries k 0 0%nat [])
      by (try (intros n Hn; apply Hfail); lia).
    rewrite retry_loop_exhausted by (try assumption; lia).
    cbn. rewrite Hk. reflexivity.
  - rewrite (retry_loop_skip wrapper chunk_id max_retries k 0 0%nat [])
      by (try (intros n Hn; apply Hfail); lia).
    rewrite retry_loop_exhausted by (try assumption; lia).
    cbn. lia.
  - intros before after. unfold successful_summaries.
    rewrite !List.filter_app. cbn [List.filter is_error_string].
    rewrite Hs. reflexivity.
  - intros repr w. unfold aggregate, successful_summaries.
    cbn [List.filter is_error_string]. rewrite Hs. reflexivity.
Qed.

Lemma error_prefix_is_soft_failure_witness :
  answer (summarize_chunk_with_retry always_legitimate 1 2) =
    JStr legitimate_summary /\
  invocations (summarize_chunk_with_retry always_legitimate 1 2) = 3%nat.
Proof.
  destruct (error_prefix_is_soft_failure always_legitimate 1 2 2
              legitimate_summary) as (_ & Hlast & _).
  - intros n _. reflexivity.
  - reflexivity.
  - reflexivity.
  - apply Hlast. reflexivity.
Defined.

(** ** The final synthesis loop *)

Section final_summary_facts.
Variable backend : nat -> reply.
Variable combined : string.

Local Abbreviation floop := (final_loop backend combined).
Local Abbreviation sent_one := (fun sent => sent ++ [final_payload combined]).

Lemma final_loop_break retry_count sent slept body :
  retry_count <= MAX_RETRIES ->
  backend (length sent) = Ok body ->
  floop retry_count sent slept =
  mk_final_run (after_final_loop body) (sent_one sent) slept.
Proof.
  intros Hle Hb. rewrite final_loop_equation_1.
  destruct (decide (retry_count <= MAX_RETRIES)) as [Hle' | Hgt]; [| lia].
  cbn. rewrite Hb. reflexivity.
Qed.

Lemma final_loop_unexpected retry_count sent slept e :
  retry_count <= MAX_RETRIES ->
  backend (length sent) = Raise e ->
  isinstance e HTTPError = false ->
  floop retry_count sent slept =
  mk_final_run
    (Ok (JStr "Failed to generate final summary due to an unexpected error. Please check the logs for details."))
    (sent_one sent) slept.
Proof.
  intros Hle Hb He. rewrite final_loop_equation_1.
  destruct (decide (retry_count <= MAX_RETRIES)) as [Hle' | Hgt]; [| lia].
  cbn -[isinstance]. rewrite Hb, He. reflexivity.
Qed.

Lemma final_loop_retry retry_count sent slept e :
  retry_count + 1 <= MAX_RETRIES ->
  backend (length sent) = Raise e ->
  isinstance e HTTPError = true ->
  floop retry_count sent slept =
  floop (retry_count + 1) (sent_one sent)
    (slept ++ [10 * 2 ^ (retry_count + 1 - 1)]).
Proof.
  intros Hle Hb He. rewrite (final_loop_equation_1 _ _ retry_count).
  destruct (decide (retry_count <= MAX_RETRIES)) as [Hle' | Hgt]; [| lia].
  cbn -[isinstance]. rewrite Hb, He.
  destruct (decide (retry_count + 1 <= MAX_RETRIES)); [reflexivity | lia].
Qed.

Lemma final_loop_exhausted retry_count sent slept e :
  retry_count = MAX_RETRIES ->
  backend (length sent) = Raise e ->
  isinstance e HTTPError = true ->
  floop retry_count sent slept =
  mk_final_run
    (Ok (JStr "Failed to generate final summary after multiple attempts. Please check the logs for details."))
    (sent_one sent) slept.
Proof.
  intros -> Hb He. rewrite final_loop_equation_1.
  destruct (decide (MAX_RETRIES <= MAX_RETRIES)) as [Hle' | Hgt]; [| lia].
  cbn -[isinstance]. rewrite Hb, He.
  destruct (decide (MAX_RETRIES + 1 <= MAX_RETRIES)); [lia | reflexivity].
Qed.

(** The loop posts the same payload at every attempt, at least once and
    at most [MAX_RETRIES + 1] times in all. *)
Lemma final_loop_requests retry_count sent slept :
  retry_count <= MAX_RETRIES ->
  exists count : nat,
    (1 <= count)%nat /\
    retry_count + Z.of_nat count <= MAX_RETRIES + 1 /\
    requests (floop retry_count sent slept) =
    sent ++ replicate count (final_payload combined).
Proof.
  remember (Z.to_nat (MAX_RETRIES - retry_count)) as fuel eqn:Hfuel.
  revert retry_count sent slept Hfuel.
  induction fuel as [| fuel IH]; intros retry_count sent slept Hfuel Hle;
    destruct (backend (length sent)) as [body | e] eqn:Hb;
    try (exists 1%nat; rewrite (final_loop_break _ _ _ body) by assumption;
         cbn; repeat split; lia);
    destruct (isinstance e HTTPError) eqn:He;
    try (exists 1%nat; rewrite (final_loop_unexpected _ _ _ e) by assumption;
         cbn; repeat split; lia).
  - exists 1%nat. rewrite (final_loop_exhausted _ _ _ e) by (try assumption; lia).
    cbn. repeat split; lia.
  - rewrite (final_loop_retry _ _ _ e) by (try assumption; lia).
    destruct (IH (retry_count + 1) (sent ++ [final_payload combined])
                (slept ++ [10 * 2 ^ (retry_count + 1 - 1)]))
      as (count & Hpos & Hbound & Hreq); [lia | lia |].
    exists (S count). rewrite Hreq, <- app_assoc. cbn. repeat split; lia.
Qed.

(** A first attempt that is not retried is the only request. *)
Lemma generate_final_summary_single_request :
  (forall e, backend 0%nat = Raise e -> isinstance e HTTPError = false) ->
  requests (generate_final_summary backend combined) = [final_payload combined].
Proof.
  intros Hfirst. unfold generate_final_summary.
  destruct (backend 0%nat) as [body | e] eqn:Hb.
  - rewrite (final_loop_break _ _ _ body)
      by (try assumption; unfold MAX_RETRIES; lia).
    reflexivity.
  - rewrite (final_loop_unexpected _ _ _ e)
      by (try assumption; try (apply Hfirst; reflexivity);
          unfold MAX_RETRIES; lia).
    reflexivity.
Qed.

(** An exception leaves [generate_final_summary] only from the code
    after the loop, when a decoded body with a true truth value lacks a
    subscriptable "message", a "content" under it, or a length. *)
Lemma final_loop_raises retry_count sent slept e :
  retry_count <= MAX_RETRIES ->
  final_answer (floop retry_count sent slept) = Raise e ->
  exists (n : nat) (body : pyval),
    backend n = Ok body /\ truthy body = true /\
    after_final_loop body = Raise e.
Proof.
  remember (Z.to_nat (MAX_RETRIES - retry_count)) as fuel eqn:Hfuel.
  revert retry_count sent slept Hfuel.
  induction fuel as [| fuel IH]; intros retry_count sent slept Hfuel Hle;
    destruct (backend (length sent)) as [body | e'] eqn:Hb.
  1, 3: rewrite (final_loop_break _ _ _ body) by assumption; cbn; intros Hr;
    exists (length sent), body; repeat split; try assumption;
    unfold after_final_loop in Hr; destruct (truthy body);
    [reflexivity | discriminate].
  all: destruct (isinstance e' HTTPError) eqn:He;
    try (rewrite (final_loop_unexpected _ _ _ e') by assumption; discriminate).
  - rewrite (final_loop_exhausted _ _ _ e') by (try assumption; lia). discriminate.
  - rewrite (final_loop_retry _ _ _ e') by (try assumption; lia).
    apply IH; lia.
Qed.
End final_summary_facts.

(** C6 as stated fails on the final synthesis.  The same exception at
    every attempt is retried to the end of the budget by the chunk
    loop, three awaits and two sleeps, and is returned at once by the
    final synthesis, one request and no sleep. *)
Lemma final_synthesis_fault_not_retried :
  invocations
    (summarize_chunk_with_retry (fun _ => Raise json_decode_error) 1 MAX_RETRIES)
  = 3%nat /\
  sleeps
    (summarize_chunk_with_retry (fun _ => Raise json_decode_error) 1 MAX_RETRIES)
  = [5; 10] /\
  generate_final_summary (fun _ => Raise json_decode_error) "Section 1:" =
  mk_final_run
    (Ok (JStr "Failed to generate final summary due to an unexpected error. Please check the logs for details."))
    [final_payload "Section 1:"] [].
Proof. repeat split; vm_compute; reflexivity. Qed.

(** ** Gathering the chunk tasks *)

Section gather_facts.
Context {A : Type}.
Variable tasks : list A.

Local Abbreviation finish :=
  (fun (slots : list (option A)) (i : nat) =>
     match tasks !! i with
     | Some r => <[i := Some r]> slots
     | None => slots
     end).

Lemma finish_length slots i :
  length (finish slots i) = length slots.
Proof. cbn. destruct (tasks !! i); [apply length_insert | reflexivity]. Qed.

Lemma length_foldl_finish order : forall slots : list (option A),
  length (foldl finish slots order) = length slots.
Proof.
  induction order as [| j order IH]; intros slots; [reflexivity |].
  cbn [foldl]. rewrite IH. apply finish_length.
Qed.

(** After any completion order, the slot of a task that finished holds
    that task's result and every other slot is as before. *)
Lemma gather_slots order : forall (slots : list (option A)) (i : nat),
  length slots = length tasks ->
  foldl finish slots order !! i =
  if existsb (Nat.eqb i) order then Some <$> tasks !! i else slots !! i.
Proof.
  induction order as [| j order IH]; intros slots i Hlen; [reflexivity |].
  cbn [foldl existsb]. rewrite IH by (rewrite finish_length; exact Hlen).
  destruct (existsb (Nat.eqb i) order); [rewrite orb_true_r; reflexivity |].
  rewrite orb_false_r. destruct (Nat.eqb_spec i j) as [-> | Hne].
  - cbn. destruct (tasks !! j) as [r |] eqn:Hj.
    + apply list_lookup_insert_eq. rewrite Hlen.
      apply lookup_lt_is_Some. exists r. exact Hj.
    + cbn. apply lookup_ge_None. rewrite Hlen. apply lookup_ge_None. exact Hj.
  - cbn. destruct (tasks !! j); [apply list_lookup_insert_ne; congruence | reflexivity].
Qed.

Lemma finishes_all_spec order n i :
  finishes_all order n = true -> (i < n)%nat ->
  existsb (Nat.eqb i) order = true.
Proof.
  unfold finishes_all. rewrite List.forallb_forall. intros Hall Hi.
  apply Hall, List.in_seq. lia.
Qed.

(** [gather] returns the results in the order of the tasks, whatever
    the order in which they finished. *)
Lemma gather_complete order :
  finishes_all order (length tasks) = true ->
  gather order tasks = Some tasks.
Proof.
  intros Hall. unfold gather.
  replace (foldl _ _ order) with (Some <$> tasks).
  - apply mapM_fmap_Some. reflexivity.
  - apply list_eq. intros i.
    rewrite (gather_slots order) by apply length_replicate.
    rewrite list_lookup_fmap.
    destruct (decide (i < length tasks)%nat) as [Hlt | Hge].
    + rewrite (finishes_all_spec order (length tasks)) by assumption. reflexivity.
    + destruct (existsb (Nat.eqb i) order); [reflexivity |].
      rewrite (lookup_ge_None_2 tasks) by lia.
      rewrite (proj1 (lookup_replicate_None _ _ _)) by lia. reflexivity.
Qed.
(** What [gather] returns is the result list in task order. *)
Lemma gather_Some order (results : list A) :
  gather order tasks = Some results -> results = tasks.
Proof.
  unfold gather. intros Hg%mapM_Some.
  pose proof (Forall2_length _ _ _ Hg) as Hlen.
  rewrite length_foldl_finish, length_replicate in Hlen.
  apply list_eq. intros i.
  destruct (results !! i) as [g |] eqn:Hi.
  - destruct (Forall2_lookup_r _ _ _ i g Hg Hi) as (slot & Hslot & Hid).
    cbn in Hid. subst slot.
    rewrite gather_slots in Hslot by apply length_replicate.
    destruct (existsb (Nat.eqb i) order).
    + destruct (tasks !! i) as [t |]; [| discriminate].
      cbn in Hslot. congruence.
    + apply lookup_replicate_1 in Hslot. destruct Hslot; discriminate.
  - symmetry. apply lookup_ge_None. apply lookup_ge_None in Hi. lia.
Qed.
End gather_facts.

(** ** Dispatch and aggregation *)

Lemma append_nil_l (s : string) : "" +:+ s = s.
Proof. reflexivity. Qed.

Lemma append_cons (a : Ascii.ascii) (s t : string) :
  String a s +:+ t = String a (s +:+ t).
Proof. reflexivity. Qed.

Lemma append_inj_l (lead s t : string) : lead +:+ s = lead +:+ t -> s = t.
Proof.
  induction lead as [| a lead IH]; intros H.
  - exact H.
  - rewrite !append_cons in H. injection H as H. apply IH, H.
Qed.

(** The request of a chunk tells its text. *)
Lemma chunk_payload_inj (chunk1 chunk2 : string) :
  chunk_payload chunk1 = chunk_payload chunk2 -> chunk1 = chunk2.
Proof.
  intros H.
  apply (f_equal (fun request => content <$> messages request !! 1%nat)) in H.
  cbn in H. injection H as H. exact (append_inj_l _ _ _ H).
Qed.

Section pipeline_facts.
Variable split_text : string -> list string.
Variable repr : pyval -> string.
Variable w : world.

Lemma processed_summaries_returned (values : list pyval) :
  processed_summaries (Ok <$> values) = values.
Proof.
  unfold processed_summaries. rewrite imap_fmap. cbn.
  induction values as [| v values IH] using rev_ind; [reflexivity |].
  rewrite imap_app, IH. reflexivity.
Qed.

Lemma dispatch_complete order chunks :
  finishes_all order (length chunks) = true ->
  dispatch w order chunks = Some (answer <$> tasks w chunks).
Proof.
  intros Hall. unfold dispatch.
  rewrite gather_complete
    by (rewrite length_map; unfold tasks; rewrite length_imap; exact Hall).
  cbn. f_equal.
  rewrite <- (processed_summaries_returned (answer <$> tasks w chunks)).
  f_equal. rewrite <- list_fmap_compose. reflexivity.
Qed.

Lemma length_sections summaries :
  length (sections repr summaries) = length summaries.
Proof. apply length_imap. Qed.

Lemma lookup_sections summaries i summary :
  summaries !! i = Some summary ->
  sections repr summaries !! i =
  Some ("Section " +:+ pretty (i + 1)%nat +:+ ":" +:+ nl +:+
        format_value repr summary).
Proof.
  intros Hi. unfold sections. rewrite list_lookup_imap, Hi. reflexivity.
Qed.

Lemma successful_summaries_nil summaries :
  forallb is_error_string summaries = true ->
  successful_summaries summaries = [].
Proof.
  induction summaries as [| s summaries IH]; [reflexivity |].
  cbn. intros [Hs Hrest]%andb_prop. rewrite Hs. cbn. apply IH, Hrest.
Qed.

Lemma successful_summaries_cons summaries :
  existsb (fun s => negb (is_error_string s)) summaries = true ->
  exists s rest, successful_summaries summaries = s :: rest.
Proof.
  induction summaries as [| s summaries IH]; [discriminate |].
  cbn. destruct (is_error_string s); cbn; [exact IH | eauto].
Qed.

(** With a successful summary among the outcomes, the aggregation is
    the final synthesis over the combined summary. *)
Lemma aggregate_synthesis summaries :
  existsb (fun s => negb (is_error_string s)) summaries = true ->
  aggregate repr w summaries =
  (final_answer
     (generate_final_summary (final_reply w)
        (combined_chunk_summaries repr summaries)),
   Some (generate_final_summary (final_reply w)
           (combined_chunk_summaries repr summaries))).
Proof.
  intros Hsome.
  destruct (successful_summaries_cons summaries Hsome) as (s & rest & Hs).
  unfold aggregate. rewrite Hs. reflexivity.
Qed.

(** C2.  When every chunk task has finished, in whatever order, the
    dispatch holds one outcome per chunk.  The outcome at each position
    is the one of the retry run of the chunk at that position, failed
    or not: the run whose every request carries the text of that chunk
    in its user message, and which goes on from the backend's replies
    to those requests.  The combined summary joins one section per
    outcome, numbered from 1 in chunk order. *)
Theorem dispatch_index_aligned (order : list nat) (text : string) :
  let chunks := split_text text in
  finishes_all order (length chunks) = true ->
  exists summaries : list pyval,
    dispatch w order chunks = Some summaries /\
    length summaries = length chunks /\
    (forall i chunk,
       chunks !! i = Some chunk ->
       summaries !! i =
       Some (answer
               (summarize_chunk_with_retry
                  (fun n =>
                     summarize_chunk_wrapper chunk (i + 1) (length chunks)
                       (chunk_reply w (i + 1)%nat (chunk_payload chunk) n))
                  (i + 1) MAX_RETRIES)) /\
       chunk_payload chunk =
       mk_payload OLLAMA_MODEL
         [ mk_message "system"
             "Extract only technical details. No citations or references.";
           mk_message "user" ("Extract technical content: " +:+ chunk) ]
         false) /\
    (forall i j chunk_i chunk_j,
       chunks !! i = Some chunk_i -> chunks !! j = Some chunk_j ->
       chunk_payload chunk_i = chunk_payload chunk_j -> chunk_i = chunk_j) /\
    combined_chunk_summaries repr summaries =
      String.concat (nl +:+ nl) (sections repr summaries) /\
    length (sections repr summaries) = length chunks /\
    (forall i summary,
       summaries !! i = Some summary ->
       sections repr summaries !! i =
       Some ("Section " +:+ pretty (i + 1)%nat +:+ ":" +:+ nl +:+
             format_value repr summary)).
Proof.
  intros chunks Hall. exists (answer <$> tasks w chunks).
  split; [apply dispatch_complete, Hall |].
  assert (length (answer <$> tasks w chunks) = length chunks) as Hlen
    by (rewrite length_fmap; apply length_imap).
  split; [exact Hlen |]. split; [| split; [| split; [| split]]].
  - intros i chunk Hi. split; [| reflexivity]. unfold tasks.
    rewrite list_lookup_fmap, list_lookup_imap, Hi. reflexivity.
  - intros i j chunk_i chunk_j _ _. apply chunk_payload_inj.
  - reflexivity.
  - rewrite length_sections. exact Hlen.
  - intros i summary. apply lookup_sections.
Qed.

(** C3.  When every outcome is an error string, the aggregation returns
    the "no meaningful summary" sentinel and does not start the final
    synthesis, so that no request is sent for it; the pipeline returns
    the sentinel. *)
Theorem aggregate_all_failed
  (order : list nat) (text : string) (summaries : list pyval) :
  dispatch w order (split_text text) = Some summaries ->
  forallb is_error_string summaries = true ->
  aggregate repr w summaries =
    (Ok (JStr "No meaningful summary could be generated. All chunks failed processing."),
     None) /\
  exists run,
    summarize_text_parallel split_text repr w order text = Some run /\
    returned run =
      Ok (JStr "No meaningful summary could be generated. All chunks failed processing.") /\
    synthesis run = None.
Proof.
  intros Hd Hall.
  assert (aggregate repr w summaries =
          (Ok (JStr "No meaningful summary could be generated. All chunks failed processing."),
           None)) as Hagg
    by (unfold aggregate; rewrite successful_summaries_nil by exact Hall;
        reflexivity).
  split; [exact Hagg |].
  unfold summarize_text_parallel. rewrite Hd. cbn. rewrite Hagg.
  eexists. split; [reflexivity |]. split; reflexivity.
Qed.

(** C4.  When some outcome is not an error string, the aggregation
    starts the final synthesis with the combined summary of all
    outcomes: every request posted carries it between the fixed parts
    of the user message, there are between one and [MAX_RETRIES + 1]
    requests, and exactly one when the first attempt is not retried.
    The combined summary has one section per outcome, numbered from 1
    in order; an error string is a section like any other. *)
Theorem aggregate_one_final_call (summaries : list pyval) :
  existsb (fun s => negb (is_error_string s)) summaries = true ->
  exists run : final_run,
    aggregate repr w summaries = (final_answer run, Some run) /\
    run = generate_final_summary (final_reply w)
            (combined_chunk_summaries repr summaries) /\
    (exists count : nat,
       (1 <= count <= Z.to_nat (MAX_RETRIES + 1))%nat /\
       requests run =
       replicate count (final_payload (combined_chunk_summaries repr summaries))) /\
    ((forall e, final_reply w 0%nat = Raise e -> isinstance e HTTPError = false) ->
     requests run = [final_payload (combined_chunk_summaries repr summaries)]) /\
    messages (final_payload (combined_chunk_summaries repr summaries)) =
      [ mk_message "system" final_system_content;
        mk_message "user"
          (final_user_prefix +:+
           String.concat (nl +:+ nl) (sections repr summaries) +:+
           final_user_suffix) ] /\
    length (sections repr summaries) = length summaries /\
    (forall i summary,
       summaries !! i = Some summary ->
       sections repr summaries !! i =
       Some ("Section " +:+ pretty (i + 1)%nat +:+ ":" +:+ nl +:+
             format_value repr summary)) /\
    (forall i s,
       summaries !! i = Some (JStr s) ->
       sections repr summaries !! i =
       Some ("Section " +:+ pretty (i + 1)%nat +:+ ":" +:+ nl +:+ s)).
Proof.
  intros Hsome. eexists.
  split; [apply aggregate_synthesis, Hsome | split; [reflexivity |]].
  repeat split.
  - unfold generate_final_summary.
    destruct (final_loop_requests (final_reply w)
                (combined_chunk_summaries repr summaries) 0 [] [])
      as (count & Hpos & Hbound & Hreq); [unfold MAX_RETRIES; lia |].
    exists count. split; [lia | exact Hreq].
  - apply generate_final_summary_single_request.
  - apply length_sections.
  - intros i summary. apply lookup_sections.
  - intros i s' Hi. apply (lookup_sections summaries i (JStr s') Hi).
Qed.
End pipeline_facts.

(** ** The single-chunk summarizer *)

Lemma error_in_chunk_prefix (chunk_id : nat) (rest : string) :
  startswith ("Error in chunk " +:+ pretty chunk_id +:+ rest) "Error" = true.
Proof. reflexivity. Qed.

Lemma error_processing_prefix (chunk_id : nat) (rest : string) :
  startswith ("Error processing chunk " +:+ pretty chunk_id +:+ rest) "Error" = true.
Proof. reflexivity. Qed.

(** C10, as the code has it.  Whatever the backend does, the single-chunk
    summarizer raises nothing.  What it returns is either the
    "message"/"content" entry of the decoded body, when that entry is
    there and has a length, or a string that begins with "Error".  A
    "content" that is a JSON array or object is returned as it is; in
    every other case the value returned is a string. *)
Theorem summarize_chunk_wrapper_outcomes
  (chunk : string) (chunk_id total_chunks : nat) (r : reply) :
  exists v : pyval,
    summarize_chunk_wrapper chunk chunk_id total_chunks r = Ok v /\
    ((exists body message,
        r = Ok body /\
        getitem body "message" = Ok message /\
        getitem message "content" = Ok v /\
        match v with JStr _ | JArr _ | JObj _ => True | _ => False end) \/
     (exists s, v = JStr s /\ startswith s "Error" = true)).
Proof.
  unfold summarize_chunk_wrapper.
  destruct r as [body | e].
  - cbn [mbind result_bind try_except].
    destruct (getitem body "message") as [message | e1] eqn:Hm;
      cbn [mbind result_bind try_except].
    + destruct (getitem message "content") as [summary | e2] eqn:Hc;
        cbn [mbind result_bind try_except].
      * destruct summary as [| b | z | s | items | fields];
          try (eexists; split; [reflexivity |]; left;
               exists body, message; repeat split; assumption);
          (eexists; split;
           [ cbn; repeat match goal with
                    | |- context [isinstance ?e ?c] => destruct (isinstance e c)
                    end; reflexivity
           | right; eexists; split; [reflexivity | apply error_processing_prefix] ]).
      * destruct (exn_isa e2) eqn:Hisa, (exn_status_code e2) eqn:Hcode;
          eexists; (split;
            [ unfold isinstance, response_status_code; rewrite Hisa, ?Hcode;
              cbn; reflexivity
            | right; eexists; split; [reflexivity | reflexivity] ]).
    + destruct (exn_isa e1) eqn:Hisa, (exn_status_code e1) eqn:Hcode;
        eexists; (split;
          [ unfold isinstance, response_status_code; rewrite Hisa, ?Hcode;
            cbn; reflexivity
          | right; eexists; split; [reflexivity | reflexivity] ]).
  - cbn [mbind result_bind try_except].
    destruct (exn_isa e) eqn:Hisa, (exn_status_code e) eqn:Hcode;
      eexists; (split;
        [ unfold isinstance, response_status_code; rewrite Hisa, ?Hcode;
          cbn; reflexivity
        | right; eexists; split; [reflexivity | reflexivity] ]).
Qed.

(** C10 as stated fails where the body is well-formed JSON whose
    "content" is an array: the summarizer returns the array, which is
    not a string and does not read as a failure. *)
Lemma summarize_chunk_wrapper_returns_list :
  summarize_chunk_wrapper "text" 1 1
    (Ok (JObj [("message", JObj [("content", JArr [JStr "part"])])]))
  = Ok (JArr [JStr "part"]) /\
  ~ (exists s : string,
       summarize_chunk_wrapper "text" 1 1
         (Ok (JObj [("message", JObj [("content", JArr [JStr "part"])])]))
       = Ok (JStr s)).
Proof.
  split; [reflexivity |].
  intros [s Hs]. vm_compute in Hs. discriminate.
Qed.

(** ** The pipeline as a whole *)

Section summarize_facts.
Variable split_text : string -> list string.
Variable repr : pyval -> string.
Variable w : world.

(** A chunk whose first reply carries a string that does not begin
    with "Error" is done after one await, without a sleep. *)
Lemma first_attempt_succeeds chunk chunk_id total_chunks body message s :
  chunk_reply w chunk_id (chunk_payload chunk) 0%nat = Ok body ->
  getitem body "message" = Ok message ->
  getitem message "content" = Ok (JStr s) ->
  startswith s "Error" = false ->
  summarize_chunk_with_retry
    (summarize_chunk_call (chunk_reply w chunk_id) chunk chunk_id total_chunks)
    chunk_id MAX_RETRIES
  = mk_retry_run (JStr s) 1 [].
Proof.
  intros Hr Hm Hc Hs. unfold summarize_chunk_with_retry.
  apply retry_loop_success; [unfold MAX_RETRIES; lia | | exact Hs].
  unfold summarize_chunk_call, summarize_chunk_wrapper. rewrite Hr.
  cbn [mbind result_bind]. rewrite Hm. cbn [mbind result_bind]. rewrite Hc.
  reflexivity.
Qed.

Lemma after_final_loop_well_formed body message s :
  getitem body "message" = Ok message ->
  getitem message "content" = Ok (JStr s) ->
  after_final_loop body = Ok (JStr s).
Proof.
  intros Hm Hc. unfold after_final_loop.
  assert (truthy body = true) as ->.
  { destruct body as [| b | z | t | items | fields]; try discriminate.
    destruct fields; [discriminate | reflexivity]. }
  cbn [negb]. rewrite Hm. cbn [mbind result_bind]. rewrite Hc. reflexivity.
Qed.

Lemma after_final_loop_content s :
  after_final_loop (body_with_content s) = Ok (JStr s).
Proof. reflexivity. Qed.

(** When the text has chunks, every chunk call succeeds at the first
    attempt with a string that does not begin with "Error", and the
    first final call succeeds, the pipeline returns the content of the
    final reply as it is, after one await per chunk and one final
    request. *)
Lemma all_first_attempts_succeed (order : list nat) (text final : string)
  (final_body final_message : pyval) :
  let chunks := split_text text in
  chunks <> [] ->
  finishes_all order (length chunks) = true ->
  (forall i chunk,
     chunks !! i = Some chunk ->
     exists body message s,
       chunk_reply w (i + 1)%nat (chunk_payload chunk) 0%nat = Ok body /\
       getitem body "message" = Ok message /\
       getitem message "content" = Ok (JStr s) /\
       startswith s "Error" = false) ->
  final_reply w 0%nat = Ok final_body ->
  getitem final_body "message" = Ok final_message ->
  getitem final_message "content" = Ok (JStr final) ->
  exists run,
    summarize_text_parallel split_text repr w order text = Some run /\
    returned run = Ok (JStr final) /\
    Forall (fun r => invocations r = 1%nat) (chunk_runs run) /\
    (requests <$> synthesis run) =
    Some [final_payload
            (combined_chunk_summaries repr (answer <$> chunk_runs run))].
Proof.
  intros chunks. subst chunks. unfold summarize_text_parallel.
  generalize (split_text text).
  intros chunks Hne Hall Hchunks Hfinal Hfm Hfc.
  assert (forall i r, tasks w chunks !! i = Some r ->
            exists s, r = mk_retry_run (JStr s) 1 [] /\
                      startswith s "Error" = false) as Htasks.
  { intros i r. unfold tasks. rewrite list_lookup_imap.
    destruct (chunks !! i) as [chunk |] eqn:Hi; [| discriminate].
    cbn. intros [= <-].
    destruct (Hchunks i chunk Hi) as (body & message & s & Hr & Hm & Hc & Hs).
    exists s. split; [| exact Hs].
    apply (first_attempt_succeeds chunk (i + 1) (length chunks) body message s);
      assumption. }
  assert (existsb (fun s => negb (is_error_string s))
            (answer <$> tasks w chunks) = true) as Hsome.
  { destruct (lookup_lt_is_Some_2 (tasks w chunks) 0%nat) as [r Hr].
    { unfold tasks. rewrite length_imap.
      destruct chunks; [congruence | cbn; lia]. }
    destruct (Htasks 0%nat r Hr) as (s & -> & Hs).
    apply List.existsb_exists. exists (JStr s). split.
    - apply list_elem_of_In, list_elem_of_lookup. exists 0%nat.
      rewrite list_lookup_fmap, Hr. reflexivity.
    - cbn [is_error_string]. rewrite Hs. reflexivity. }
  rewrite dispatch_complete by exact Hall. cbn [mbind option_bind].
  rewrite (aggregate_synthesis repr w _ Hsome).
  eexists. split; [reflexivity |]. cbn.
  repeat split.
  - unfold generate_final_summary.
    rewrite (final_loop_break _ _ _ _ _ final_body)
      by (try assumption; unfold MAX_RETRIES; lia).
    cbn [final_answer].
    apply (after_final_loop_well_formed final_body final_message final Hfm Hfc).
  - apply Forall_lookup. intros i r Hr.
    destruct (Htasks i r Hr) as (s & -> & _). reflexivity.
  - f_equal. apply generate_final_summary_single_request.
    intros e He. rewrite Hfinal in He. discriminate.
Qed.

(** C5 fails at this input.  One chunk is summarized at the first
    attempt; the final call is answered by a JSON object without a
    "message" entry.  The subscript after the loop raises [KeyError],
    and the pipeline raises it to its caller. *)
Theorem final_synthesis_key_error_escapes
  (order : list nat) (text chunk summary problem : string) :
  split_text text = [chunk] ->
  finishes_all order 1 = true ->
  chunk_reply w 1%nat (chunk_payload chunk) 0%nat =
    Ok (body_with_content summary) ->
  startswith summary "Error" = false ->
  final_reply w 0%nat = Ok (JObj [("error", JStr problem)]) ->
  exists run,
    summarize_text_parallel split_text repr w order text = Some run /\
    returned run = Raise (KeyError "message").
Proof.
  intros Hsplit Hall Hchunk Hs Hfinal.
  unfold summarize_text_parallel. rewrite Hsplit.
  rewrite dispatch_complete by exact Hall.
  change (tasks w [chunk]) with
    [summarize_chunk_with_retry
       (summarize_chunk_call (chunk_reply w 1%nat) chunk 1 1) 1 MAX_RETRIES].
  rewrite (first_attempt_succeeds chunk 1 1 (body_with_content summary)
             (JObj [("content", JStr summary)]) summary Hchunk eq_refl eq_refl Hs).
  cbn [mbind option_bind fmap list_fmap].
  unfold aggregate, successful_summaries.
  cbn [answer List.filter is_error_string]. rewrite Hs. cbn [negb].
  unfold generate_final_summary.
  rewrite (final_loop_break _ _ _ _ _ (JObj [("error", JStr problem)]))
    by (try assumption; unfold MAX_RETRIES; lia).
  eexists. split; reflexivity.
Qed.
End summarize_facts.

(** ** The properties at work on the scenarios *)

Lemma dispatch_index_aligned_witness :
  dispatch echo_backend [2; 0; 1]%nat (fixed_split ["a"; "b"; "c"] "abc") =
  Some [JStr "Extract technical content: a";
        JStr "Extract technical content: b";
        JStr "Extract technical content: c"].
Proof.
  destruct (dispatch_index_aligned (fixed_split ["a"; "b"; "c"]) repr_unused
              echo_backend [2; 0; 1]%nat "abc")
    as (summaries & Hd & Hlen & Hat & _).
  - reflexivity.
  - rewrite Hd. f_equal.
    destruct summaries as [| s0 [| s1 [| s2 [| s3 rest]]]]; try discriminate Hlen.
    pose proof (proj1 (Hat 0%nat "a" eq_refl)) as H0.
    pose proof (proj1 (Hat 1%nat "b" eq_refl)) as H1.
    pose proof (proj1 (Hat 2%nat "c" eq_refl)) as H2.
    cbn [lookup list_lookup] in H0, H1, H2.
    injection H0 as ->. injection H1 as ->. injection H2 as ->.
    reflexivity.
Defined.

Lemma aggregate_all_failed_witness :
  exists run,
    summarize_text_parallel (fixed_split ["a"; "b"]) repr_unused backend_down
      [1; 0]%nat "ab" = Some run /\
    returned run =
      Ok (JStr "No meaningful summary could be generated. All chunks failed processing.") /\
    synthesis run = None.
Proof.
  refine (proj2 (aggregate_all_failed (fixed_split ["a"; "b"]) repr_unused
                   backend_down [1; 0]%nat "ab"
                   (answer <$> tasks backend_down ["a"; "b"]) _ _)).
  - reflexivity.
  - reflexivity.
Defined.

Lemma aggregate_one_final_call_witness :
  exists run : final_run,
    aggregate repr_unused second_chunk_times_out
      (answer <$> tasks second_chunk_times_out ["a"; "b"; "c"]) =
    (final_answer run, Some run) /\
    length (requests run) = 1%nat /\
    length (sections repr_unused
              (answer <$> tasks second_chunk_times_out ["a"; "b"; "c"])) = 3%nat.
Proof.
  destruct (aggregate_one_final_call repr_unused second_chunk_times_out
              (answer <$> tasks second_chunk_times_out ["a"; "b"; "c"]))
    as (run & Hagg & _ & _ & Hone & _ & Hlen & _).
  - reflexivity.
  - exists run. split; [exact Hagg |]. split; [| exact Hlen].
    rewrite Hone; [reflexivity |].
    intros e He. discriminate He.
Defined.

Lemma final_synthesis_key_error_escapes_witness :
  exists run,
    summarize_text_parallel (fixed_split ["the only chunk"]) repr_unused
      final_body_without_message [0%nat] "the only chunk" = Some run /\
    returned run = Raise (KeyError "message").
Proof.
  apply (final_synthesis_key_error_escapes (fixed_split ["the only chunk"])
           repr_unused final_body_without_message [0%nat] "the only chunk"
           "the only chunk" "summary" "model not loaded");
    reflexivity.
Defined.

(** * Further properties of the code *)

(** ** The backoff schedule and the end of the chunk retry loop *)

Lemma lookup_backoffs base count : forall retries (j : nat),
  (j < count)%nat ->
  backoffs base retries count !! j = Some (base * 2 ^ (retries + Z.of_nat j)).
Proof.
  induction count as [| count IH]; intros retries j Hj; [lia |].
  destruct j as [| j]; cbn [backoffs].
  - cbn. do 3 f_equal. lia.
  - cbn [lookup list_lookup]. rewrite IH by lia. do 3 f_equal. lia.
Qed.

(** The run of the loop from its start, for a budget that is not
    negative. *)
Lemma summarize_chunk_with_retry_run wrapper chunk_id max_retries :
  0 <= max_retries ->
  exists count : nat,
    (forall n, (n < count)%nat -> failed (wrapper n) = true) /\
    Z.of_nat count <= max_retries /\
    (failed (wrapper count) = false \/ Z.of_nat count = max_retries) /\
    summarize_chunk_with_retry wrapper chunk_id max_retries =
    mk_retry_run (terminal_answer chunk_id max_retries (wrapper count))
      (S count) (backoffs RETRY_BACKOFF_BASE 0 count).
Proof.
  intros Hmax.
  destruct (retry_loop_run wrapper chunk_id max_retries 0 0%nat [] Hmax)
    as (count & Hfail & Hbudget & Hlast & Hrun).
  exists count. repeat split.
  - intros n Hn. apply Hfail. lia.
  - lia.
  - destruct Hlast as [Hlast | Hlast]; [left; exact Hlast | right; lia].
  - exact Hrun.
Qed.

(** Between two awaits of the operation the loop sleeps once: 5
    seconds after the first failure and twice as long after each
    further one.  The operation is awaited at most [max_retries + 1]
    times, and not at all when the budget is negative. *)
Theorem chunk_retry_backoff_schedule
  (wrapper : nat -> result pyval) (chunk_id : nat) (max_retries : Z) :
  let run := summarize_chunk_with_retry wrapper chunk_id max_retries in
  length (sleeps run) = (invocations run - 1)%nat /\
  (forall j : nat,
     (j < invocations run - 1)%nat ->
     sleeps run !! j = Some (5 * 2 ^ Z.of_nat j)) /\
  Z.of_nat (invocations run) <= Z.max 0 (max_retries + 1).
Proof.
  intros run. subst run.
  destruct (decide (0 <= max_retries)) as [Hmax | Hneg].
  - destruct (summarize_chunk_with_retry_run wrapper chunk_id max_retries Hmax)
      as (count & _ & Hbudget & _ & ->).
    cbn [sleeps invocations]. rewrite length_backoffs.
    replace (S count - 1)%nat with count by lia.
    repeat split; [| lia].
    intros j Hj. rewrite lookup_backoffs by exact Hj. reflexivity.
  - unfold summarize_chunk_with_retry. rewrite retry_loop_exit by lia.
    cbn. repeat split; [| lia]. intros j Hj. lia.
Qed.

(** With a budget that is not negative, the loop returns an error
    string only when the budget is used up, every attempt having
    failed; any other answer is what the last await returned, every
    attempt before it having failed. *)
Theorem chunk_retry_gives_up_only_when_exhausted
  (wrapper : nat -> result pyval) (chunk_id : nat) (max_retries : Z) :
  0 <= max_retries ->
  let run := summarize_chunk_with_retry wrapper chunk_id max_retries in
  (is_error_string (answer run) = true ->
   invocations run = Z.to_nat (max_retries + 1) /\
   forall n, (n < invocations run)%nat -> failed (wrapper n) = true) /\
  (is_error_string (answer run) = false ->
   wrapper (invocations run - 1)%nat = Ok (answer run) /\
   forall n, (n < invocations run - 1)%nat -> failed (wrapper n) = true).
Proof.
  intros Hmax run. subst run.
  destruct (summarize_chunk_with_retry_run wrapper chunk_id max_retries Hmax)
    as (count & Hfail & Hbudget & Hlast & ->).
  cbn [answer invocations]. replace (S count - 1)%nat with count by lia.
  destruct (failed (wrapper count)) eqn:Hf.
  - rewrite (terminal_answer_failed _ _ _ Hf). split; [| discriminate].
    intros _. destruct Hlast as [Hlast | Hlast]; [discriminate |].
    split; [lia |].
    intros n Hn. destruct (decide (n = count)) as [-> | Hne];
      [exact Hf | apply Hfail; lia].
  - destruct (wrapper count) as [v | e] eqn:Hw; [| discriminate].
    cbn in Hf |- *. rewrite Hf. split; [discriminate |].
    intros _. split; [reflexivity | exact Hfail].
Qed.

Lemma chunk_retry_gives_up_only_when_exhausted_witness :
  invocations (summarize_chunk_with_retry always_raises 7 2) = 3%nat /\
  flaky_twice (invocations (summarize_chunk_with_retry flaky_twice 7 2) - 1)%nat =
  Ok (answer (summarize_chunk_with_retry flaky_twice 7 2)).
Proof.
  split.
  - apply (proj1 (chunk_retry_gives_up_only_when_exhausted always_raises 7 2
                    ltac:(lia))).
    reflexivity.
  - apply (proj2 (chunk_retry_gives_up_only_when_exhausted flaky_twice 7 2
                    ltac:(lia))).
    reflexivity.
Defined.

(** ** The run of the final synthesis *)

Section final_run_facts.
Variable backend : nat -> reply.
Variable combined : string.

Local Abbreviation fpayload := (final_payload combined).

Lemma http_error_raise outcome :
  http_error outcome = true ->
  exists e, outcome = Raise e /\ isinstance e HTTPError = true.
Proof. destruct outcome as [body | e]; [discriminate | eauto]. Qed.

(** [count] attempts in a row that raise an [httpx.HTTPError], with
    budget left after each, are [count] turns of the loop. *)
Lemma final_loop_skip count : forall retry_count sent slept,
  (forall n, (length sent <= n < length sent + count)%nat ->
             http_error (backend n) = true) ->
  retry_count + Z.of_nat count <= MAX_RETRIES ->
  final_loop backend combined retry_count sent slept =
  final_loop backend combined (retry_count + Z.of_nat count)
    (sent ++ replicate count fpayload)
    (slept ++ backoffs 10 retry_count count).
Proof.
  induction count as [| count IH]; intros retry_count sent slept Hfail Hle.
  - cbn [backoffs replicate]. rewrite !app_nil_r, Z.add_0_r. reflexivity.
  - destruct (http_error_raise (backend (length sent))) as (e & Hb & He);
      [apply Hfail; lia |].
    rewrite (final_loop_retry _ _ _ _ _ e) by (try assumption; lia).
    rewrite IH.
    + cbn [backoffs replicate]. rewrite <- !app_assoc. cbn [app].
      f_equal; lia.
    + intros n Hn. rewrite length_app in Hn. cbn in Hn. apply Hfail. lia.
    + lia.
Qed.

(** Every run is a row of attempts that raise an [httpx.HTTPError],
    each followed by its sleep, and one last attempt. *)
Lemma final_loop_run retry_count sent slept :
  retry_count <= MAX_RETRIES ->
  exists count : nat,
    (forall n, (length sent <= n < length sent + count)%nat ->
               http_error (backend n) = true) /\
    retry_count + Z.of_nat count <= MAX_RETRIES /\
    (http_error (backend (length sent + count)) = false \/
     retry_count + Z.of_nat count = MAX_RETRIES) /\
    final_loop backend combined retry_count sent slept =
    mk_final_run (final_terminal_answer (backend (length sent + count)))
      (sent ++ replicate (S count) fpayload)
      (slept ++ backoffs 10 retry_count count).
Proof.
  remember (Z.to_nat (MAX_RETRIES - retry_count)) as fuel eqn:Hfuel.
  revert retry_count sent slept Hfuel.
  induction fuel as [| fuel IH]; intros retry_count sent slept Hfuel Hle.
  - exists 0%nat. rewrite Nat.add_0_r, Z.add_0_r, app_nil_r.
    repeat split; [lia | lia | right; lia |].
    destruct (backend (length sent)) as [body | e] eqn:Hb.
    + apply final_loop_break; assumption.
    + cbn [final_terminal_answer]. destruct (isinstance e HTTPError) eqn:He.
      * apply (final_loop_exhausted _ _ _ _ _ e); [lia | assumption..].
      * apply (final_loop_unexpected _ _ _ _ _ e); assumption.
  - destruct (http_error (backend (length sent))) eqn:Hh.
    + destruct (http_error_raise _ Hh) as (e & Hb & He).
      destruct (IH (retry_count + 1) (sent ++ [fpayload])
                  (slept ++ [10 * 2 ^ (retry_count + 1 - 1)]))
        as (count & Hfail & Hbudget & Hlast & Hrun); [lia | lia |].
      rewrite length_app in Hfail, Hlast, Hrun. cbn [length] in Hfail, Hlast, Hrun.
      exists (S count).
      replace (length sent + S count)%nat with (length sent + 1 + count)%nat by lia.
      repeat split.
      * intros n Hn. destruct (decide (n = length sent)) as [-> | Hne];
          [exact Hh | apply Hfail; lia].
      * lia.
      * destruct Hlast as [Hlast | Hlast]; [left; exact Hlast | right; lia].
      * rewrite (final_loop_retry _ _ _ _ _ e) by (try assumption; lia).
        rewrite Hrun. cbn [backoffs replicate]. rewrite <- !app_assoc.
        reflexivity.
    + exists 0%nat. rewrite Nat.add_0_r, Z.add_0_r, app_nil_r.
      repeat split; [lia | lia | left; exact Hh |].
      destruct (backend (length sent)) as [body | e] eqn:Hb.
      * apply final_loop_break; assumption.
      * cbn [http_error final_terminal_answer] in Hh |- *. rewrite Hh.
        apply (final_loop_unexpected _ _ _ _ _ e); assumption.
Qed.
End final_run_facts.

(** C6, as the code has it.  There are two retry loops.  In the chunk
    loop an exception and a string that begins with "Error" are one
    kind of failed attempt: the awaits and the sleeps depend only on
    which attempts fail, each failed attempt with budget left is
    followed by a sleep of 5 seconds doubled each time and by another
    attempt, and the loop ends at the first attempt that does not fail
    or with the budget.  In the final synthesis only an
    [httpx.HTTPError] is a failed attempt that is retried, after a
    sleep of 10 seconds doubled each time; at any attempt another
    exception ends the call at once with the "unexpected error"
    sentinel, and a decoded body ends the loop whatever it holds, a
    content that begins with "Error" included. *)
Theorem retry_policies
  (wrapper1 wrapper2 : nat -> result pyval) (id1 id2 : nat) (max_retries : Z)
  (backend : nat -> reply) (combined : string) :
  let chunk_run := summarize_chunk_with_retry wrapper1 id1 max_retries in
  let final := generate_final_summary backend combined in
  ((forall n, failed (wrapper1 n) = failed (wrapper2 n)) ->
   invocations chunk_run =
     invocations (summarize_chunk_with_retry wrapper2 id2 max_retries) /\
   sleeps chunk_run =
     sleeps (summarize_chunk_with_retry wrapper2 id2 max_retries)) /\
  (0 <= max_retries ->
   exists count : nat,
     (forall n, (n < count)%nat -> failed (wrapper1 n) = true) /\
     Z.of_nat count <= max_retries /\
     (failed (wrapper1 count) = false \/ Z.of_nat count = max_retries) /\
     chunk_run =
       mk_retry_run (terminal_answer id1 max_retries (wrapper1 count))
         (S count) (backoffs RETRY_BACKOFF_BASE 0 count) /\
     (forall j : nat,
        (j < count)%nat -> sleeps chunk_run !! j = Some (5 * 2 ^ Z.of_nat j))) /\
  (exists count : nat,
     (forall n, (n < count)%nat -> http_error (backend n) = true) /\
     Z.of_nat count <= MAX_RETRIES /\
     (http_error (backend count) = false \/ Z.of_nat count = MAX_RETRIES) /\
     final =
       mk_final_run (final_terminal_answer (backend count))
         (replicate (S count) (final_payload combined)) (backoffs 10 0 count) /\
     (forall j : nat,
        (j < count)%nat ->
        final_sleeps final !! j = Some (10 * 2 ^ Z.of_nat j))) /\
  (forall (n : nat) (e : exn),
     Z.of_nat n <= MAX_RETRIES ->
     (forall m, (m < n)%nat -> http_error (backend m) = true) ->
     backend n = Raise e ->
     isinstance e HTTPError = false ->
     final =
     mk_final_run
       (Ok (JStr "Failed to generate final summary due to an unexpected error. Please check the logs for details."))
       (replicate (S n) (final_payload combined)) (backoffs 10 0 n)) /\
  (forall (n : nat) (body : pyval),
     Z.of_nat n <= MAX_RETRIES ->
     (forall m, (m < n)%nat -> http_error (backend m) = true) ->
     backend n = Ok body ->
     final =
       mk_final_run (after_final_loop body)
         (replicate (S n) (final_payload combined)) (backoffs 10 0 n) /\
     (forall message s,
        getitem body "message" = Ok message ->
        getitem message "content" = Ok (JStr s) ->
        final_answer final = Ok (JStr s))) /\
  (forall n : nat,
     Z.of_nat n < MAX_RETRIES ->
     (forall m, (m <= n)%nat -> http_error (backend m) = true) ->
     (n + 2 <= length (requests final))%nat /\
     final_sleeps final !! n = Some (10 * 2 ^ Z.of_nat n)).
Proof.
  intros chunk_run final. subst chunk_run final.
  split; [| split; [| split; [| split; [| split]]]].
  - intros Hsame.
    apply (retry_loop_same_control wrapper1 wrapper2 id1 id2 max_retries Hsame).
  - intros Hmax.
    destruct (summarize_chunk_with_retry_run wrapper1 id1 max_retries Hmax)
      as (count & Hfail & Hbudget & Hlast & Hrun).
    exists count. rewrite Hrun. cbn [sleeps].
    repeat split; try assumption.
    intros j Hj. rewrite lookup_backoffs by exact Hj. reflexivity.
  - unfold generate_final_summary.
    destruct (final_loop_run backend combined 0 [] [])
      as (count & Hfail & Hbudget & Hlast & Hrun); [unfold MAX_RETRIES; lia |].
    exists count. rewrite Hrun. cbn [final_sleeps app length plus] in *.
    split; [intros n Hn; apply Hfail; lia |].
    split; [lia |].
    split; [destruct Hlast as [Hlast | Hlast]; [left; exact Hlast | right; lia] |].
    split; [reflexivity |].
    intros j Hj. rewrite lookup_backoffs by exact Hj. reflexivity.
  - intros n e Hn Hfail Hb He. unfold generate_final_summary.
    rewrite (final_loop_skip backend combined n 0 [] [])
      by (try (intros m Hm; apply Hfail; cbn in Hm); lia).
    rewrite (final_loop_unexpected _ _ _ _ _ e)
      by (try (rewrite length_app, length_replicate; exact Hb);
          try assumption; lia).
    cbn [app]. rewrite <- replicate_S_end. reflexivity.
  - intros n body Hn Hfail Hb.
    assert (generate_final_summary backend combined =
            mk_final_run (after_final_loop body)
              (replicate (S n) (final_payload combined)) (backoffs 10 0 n))
      as Hrun.
    { unfold generate_final_summary.
      rewrite (final_loop_skip backend combined n 0 [] [])
        by (try (intros m Hm; apply Hfail; cbn in Hm); lia).
      rewrite (final_loop_break _ _ _ _ _ body)
        by (try (rewrite length_app, length_replicate; exact Hb); lia).
      cbn [app]. rewrite <- replicate_S_end. reflexivity. }
    split; [exact Hrun |].
    intros message s Hm Hc. rewrite Hrun. cbn [final_answer].
    apply (after_final_loop_well_formed body message s Hm Hc).
  - intros n Hn Hfail. unfold generate_final_summary.
    rewrite (final_loop_skip backend combined (S n) 0 [] [])
      by (try (intros m Hm; apply Hfail; cbn in Hm); lia).
    destruct (final_loop_run backend combined (0 + Z.of_nat (S n))
                ([] ++ replicate (S n) (final_payload combined))
                ([] ++ backoffs 10 0 (S n)))
      as (count & _ & _ & _ & ->); [lia |].
    cbn [requests final_sleeps app].
    rewrite length_app, !length_replicate. split; [lia |].
    rewrite lookup_app_l by (rewrite length_backoffs; lia).
    rewrite lookup_backoffs by lia. reflexivity.
Qed.

Lemma retry_policies_witness :
  (invocations (summarize_chunk_with_retry always_raises 1 2) =
   invocations (summarize_chunk_with_retry always_legitimate 2 2) /\
   sleeps (summarize_chunk_with_retry always_raises 1 2) =
   sleeps (summarize_chunk_with_retry always_legitimate 2 2)) /\
  generate_final_summary server_error_then_bad_json "Section 1:" =
  mk_final_run
    (Ok (JStr "Failed to generate final summary due to an unexpected error. Please check the logs for details."))
    [final_payload "Section 1:"; final_payload "Section 1:"] [10] /\
  final_answer
    (generate_final_summary
       (fun _ => Ok (ollama_body "Error rates fell from 3.1% to 0.4%."))
       "Section 1:") =
  Ok (JStr "Error rates fell from 3.1% to 0.4%.") /\
  (2 <= length (requests (generate_final_summary (final_reply backend_down)
                            "Section 1:")))%nat.
Proof.
  destruct (retry_policies always_raises always_legitimate 1 2 2
              server_error_then_bad_json "Section 1:")
    as (Hchunk & _ & _ & Hother & _ & _).
  destruct (retry_policies always_raises always_legitimate 1 2 2
              (fun _ => Ok (ollama_body "Error rates fell from 3.1% to 0.4%."))
              "Section 1:")
    as (_ & _ & _ & _ & Hbody & _).
  destruct (retry_policies always_raises always_legitimate 1 2 2
              (final_reply backend_down) "Section 1:")
    as (_ & _ & _ & _ & _ & Hretry).
  split; [apply Hchunk; intros n; reflexivity |].
  split; [| split].
  - apply (Hother 1%nat json_decode_error).
    + unfold MAX_RETRIES. lia.
    + intros [| m] Hm; [reflexivity | lia].
    + reflexivity.
    + reflexivity.
  - apply (proj2 (Hbody 0%nat
                    (ollama_body "Error rates fell from 3.1% to 0.4%.")
                    ltac:(unfold MAX_RETRIES; lia)
                    ltac:(intros m Hm; lia) eq_refl)
             (JObj [("role", JStr "assistant");
                    ("content", JStr "Error rates fell from 3.1% to 0.4%.")]));
      reflexivity.
  - apply (Hretry 0%nat).
    + unfold MAX_RETRIES. lia.
    + intros m Hm. reflexivity.
Defined.

(** When the final call raises an [httpx.HTTPError] at each of its
    three attempts, the synthesis has sent three requests, slept 10 and
    20 seconds between them, and returns the "multiple attempts"
    sentinel. *)
Theorem final_synthesis_exhausted (backend : nat -> reply) (combined : string) :
  (forall n, (n < 3)%nat -> http_error (backend n) = true) ->
  generate_final_summary backend combined =
  mk_final_run
    (Ok (JStr "Failed to generate final summary after multiple attempts. Please check the logs for details."))
    (replicate 3 (final_payload combined)) [10; 20].
Proof.
  intros Hfail. unfold generate_final_summary.
  rewrite (final_loop_skip backend combined 2 0 [] [])
    by (try (intros n Hn; apply Hfail; cbn in Hn); unfold MAX_RETRIES; lia).
  destruct (http_error_raise (backend 2%nat)) as (e & Hb & He);
    [apply Hfail; lia |].
  rewrite (final_loop_exhausted _ _ _ _ _ e) by (try assumption; reflexivity).
  reflexivity.
Qed.

Lemma final_synthesis_exhausted_witness :
  final_answer (generate_final_summary (final_reply backend_down) "Section 1:") =
  Ok (JStr "Failed to generate final summary after multiple attempts. Please check the logs for details.").
Proof.
  rewrite (final_synthesis_exhausted (final_reply backend_down) "Section 1:").
  - reflexivity.
  - intros n Hn. reflexivity.
Defined.

(** When the final call raises an [httpx.HTTPError] [k] times,
    [k <= MAX_RETRIES], and is then answered by a body whose "message"
    has a string "content", the synthesis returns that string as it is,
    after [k + 1] requests with the same payload and sleeps of 10
    seconds doubled each time. *)
Theorem final_synthesis_retry_then_success
  (backend : nat -> reply) (combined : string) (k : nat)
  (body message : pyval) (s : string) :
  Z.of_nat k <= MAX_RETRIES ->
  (forall n, (n < k)%nat -> http_error (backend n) = true) ->
  backend k = Ok body ->
  getitem body "message" = Ok message ->
  getitem message "content" = Ok (JStr s) ->
  generate_final_summary backend combined =
  mk_final_run (Ok (JStr s)) (replicate (k + 1) (final_payload combined))
    (backoffs 10 0 k).
Proof.
  intros Hk Hfail Hb Hm Hc. unfold generate_final_summary.
  rewrite (final_loop_skip backend combined k 0 [] [])
    by (try (intros n Hn; apply Hfail; cbn in Hn); lia).
  rewrite (final_loop_break _ _ _ _ _ body)
    by (try (rewrite length_app, length_replicate; exact Hb); lia).
  rewrite (after_final_loop_well_formed body message s Hm Hc).
  cbn [app]. f_equal.
  rewrite <- replicate_S_end. f_equal. lia.
Qed.

Lemma final_synthesis_retry_then_success_witness :
  generate_final_summary
    (fun n => if (n <? 1)%nat then Raise (mk_exn TimeoutException "timed out" None)
              else Ok (body_with_content "final document"))
    "Section 1:" =
  mk_final_run (Ok (JStr "final document"))
    (replicate 2 (final_payload "Section 1:")) [10].
Proof.
  apply (final_synthesis_retry_then_success _ "Section 1:" 1
           (body_with_content "final document")
           (JObj [("content", JStr "final document")]) "final document").
  - unfold MAX_RETRIES. lia.
  - intros [| n] Hn; [reflexivity | lia].
  - reflexivity.
  - reflexivity.
  - reflexivity.
Defined.

(** A decoded body with a false truth value, such as an empty object or
    array, [null], [0] or the empty string, ends the synthesis with the
    plain "Failed to generate final summary" sentinel; nothing is
    raised. *)
Theorem final_synthesis_falsy_body
  (backend : nat -> reply) (combined : string) (k : nat) (body : pyval) :
  Z.of_nat k <= MAX_RETRIES ->
  (forall n, (n < k)%nat -> http_error (backend n) = true) ->
  backend k = Ok body ->
  truthy body = false ->
  final_answer (generate_final_summary backend combined) =
  Ok (JStr "Failed to generate final summary. Please check the logs for details.").
Proof.
  intros Hk Hfail Hb Ht. unfold generate_final_summary.
  rewrite (final_loop_skip backend combined k 0 [] [])
    by (try (intros n Hn; apply Hfail; cbn in Hn); lia).
  rewrite (final_loop_break _ _ _ _ _ body)
    by (try (rewrite length_app, length_replicate; exact Hb); lia).
  cbn [final_answer]. unfold after_final_loop. rewrite Ht. reflexivity.
Qed.

Lemma final_synthesis_falsy_body_witness :
  final_answer (generate_final_summary (fun _ => Ok (JObj [])) "Section 1:") =
  Ok (JStr "Failed to generate final summary. Please check the logs for details.").
Proof.
  apply (final_synthesis_falsy_body _ "Section 1:" 0 (JObj [])).
  - unfold MAX_RETRIES. lia.
  - intros n Hn. lia.
  - reflexivity.
  - reflexivity.
Defined.

(** Whatever the backend does, the synthesis sends between one and
    three requests, all with the same payload, and sleeps between them
    10 seconds, then 20. *)
Theorem final_synthesis_bounds (backend : nat -> reply) (combined : string) :
  let run := generate_final_summary backend combined in
  (1 <= length (requests run) <= 3)%nat /\
  Forall (fun p => p = final_payload combined) (requests run) /\
  final_sleeps run = take (length (requests run) - 1) [10; 20].
Proof.
  intros run. subst run. unfold generate_final_summary.
  destruct (final_loop_run backend combined 0 [] [])
    as (count & _ & Hbudget & _ & ->); [unfold MAX_RETRIES; lia |].
  cbn [requests final_sleeps app]. unfold MAX_RETRIES in Hbudget.
  rewrite length_replicate.
  repeat split; [lia | lia | |].
  - apply Forall_replicate. reflexivity.
  - destruct count as [| [| [| count]]]; [reflexivity.. | lia].
Qed.

(** An exception leaves the synthesis only through the subscripts and
    the [len] after the loop: some attempt, every attempt before it
    having raised an [httpx.HTTPError], was answered by a body with a
    true truth value that has no "message" to subscript, no "content"
    under it, or a "content" without a length. *)
Theorem final_synthesis_raises_only_after_loop
  (backend : nat -> reply) (combined : string) (e : exn) :
  final_answer (generate_final_summary backend combined) = Raise e ->
  exists (n : nat) (body : pyval),
    (n <= 2)%nat /\
    (forall m, (m < n)%nat -> http_error (backend m) = true) /\
    backend n = Ok body /\
    truthy body = true /\
    (getitem body "message" = Raise e \/
     exists message,
       getitem body "message" = Ok message /\
       (getitem message "content" = Raise e \/
        exists summary,
          getitem message "content" = Ok summary /\
          py_len summary = Raise e)).
Proof.
  unfold generate_final_summary.
  destruct (final_loop_run backend combined 0 [] [])
    as (count & Hfail & Hbudget & _ & ->); [unfold MAX_RETRIES; lia |].
  cbn [final_answer length plus]. intros Hr.
  destruct (backend count) as [body | e'] eqn:Hb;
    [| cbn [final_terminal_answer] in Hr;
       destruct (isinstance e' HTTPError); discriminate].
  exists count, body. unfold MAX_RETRIES in Hbudget.
  split; [lia |]. split; [intros m Hm; apply Hfail; cbn; lia |].
  split; [exact Hb |].
  cbn [final_terminal_answer] in Hr. unfold after_final_loop in Hr.
  destruct (truthy body); [| discriminate]. split; [reflexivity |].
  cbn [negb] in Hr.
  destruct (getitem body "message") as [message | e1];
    [| left; exact Hr].
  right. exists message. split; [reflexivity |].
  cbn [mbind result_bind] in Hr.
  destruct (getitem message "content") as [summary | e2];
    [| left; exact Hr].
  right. exists summary. split; [reflexivity |].
  cbn [mbind result_bind] in Hr.
  destruct (py_len summary) as [len | e3]; cbn in Hr;
    [discriminate | injection Hr as ->; reflexivity].
Qed.

Lemma final_synthesis_raises_only_after_loop_witness :
  exists (n : nat) (body : pyval),
    final_reply final_body_without_message n = Ok body /\
    getitem body "message" = Raise (KeyError "message").
Proof.
  destruct (final_synthesis_raises_only_after_loop
              (final_reply final_body_without_message) "Section 1:"
              (KeyError "message"))
    as (n & body & _ & _ & Hb & _ & Hraise).
  - reflexivity.
  - exists n, body. split; [exact Hb |].
    destruct Hraise as [Hm | (message & Hm & _)].
    + exact Hm.
    + cbn in Hb. injection Hb as <-. discriminate Hm.
Defined.

(** ** What the single-chunk summarizer answers *)

(** A body whose "message" has a string "content" is answered by that
    string, unchanged, whatever else the body holds. *)
Theorem summarize_chunk_wrapper_returns_content
  (chunk : string) (chunk_id total_chunks : nat)
  (body message : pyval) (s : string) :
  getitem body "message" = Ok message ->
  getitem message "content" = Ok (JStr s) ->
  summarize_chunk_wrapper chunk chunk_id total_chunks (Ok body) = Ok (JStr s).
Proof.
  intros Hm Hc. unfold summarize_chunk_wrapper.
  cbn [mbind result_bind]. rewrite Hm. cbn [mbind result_bind]. rewrite Hc.
  reflexivity.
Qed.

Lemma summarize_chunk_wrapper_returns_content_witness :
  summarize_chunk_wrapper "text" 1 1
    (Ok (JObj [("model", JStr "gemma3:27b-16k");
               ("message", JObj [("role", JStr "assistant");
                                 ("content", JStr legitimate_summary)]);
               ("done", JBool true)]))
  = Ok (JStr legitimate_summary).
Proof.
  apply (summarize_chunk_wrapper_returns_content "text" 1 1 _
           (JObj [("role", JStr "assistant");
                  ("content", JStr legitimate_summary)]));
    reflexivity.
Defined.

(** The error string tells the kind of fault: a timeout and a failed
    connection have their own texts, an HTTP error that carries a
    response reports its status code, and any exception outside
    [httpx.HTTPError] is reported with its own message.  An
    [httpx.HTTPError] without a response makes the handler itself
    raise, and the string then carries the message of that second
    exception. *)
Theorem summarize_chunk_wrapper_error_messages
  (chunk : string) (chunk_id total_chunks : nat) (e : exn) :
  let answer := summarize_chunk_wrapper chunk chunk_id total_chunks (Raise e) in
  (exn_isa e = TimeoutException ->
   answer =
   Ok (JStr ("Error in chunk " +:+ pretty chunk_id +:+
             ": Request timed out. Consider increasing the timeout or reducing chunk size."))) /\
  (exn_isa e = ConnectError ->
   answer =
   Ok (JStr ("Error in chunk " +:+ pretty chunk_id +:+
             ": Could not connect to Ollama API. Check if Ollama is running correctly."))) /\
  (exn_isa e = HTTPError ->
   forall code, exn_status_code e = Some code ->
   answer =
   Ok (JStr ("Error in chunk " +:+ pretty chunk_id +:+
             ": HTTP error from Ollama API. Status code: " +:+ pretty code))) /\
  (exn_isa e = HTTPError ->
   exn_status_code e = None ->
   exists raised : exn,
     response_status_code e = Raise raised /\
     answer =
     Ok (JStr ("Error processing chunk " +:+ pretty chunk_id +:+ ": " +:+
               exn_str raised))) /\
  (exn_isa e = Exception ->
   answer =
   Ok (JStr ("Error processing chunk " +:+ pretty chunk_id +:+ ": " +:+
             exn_str e))).
Proof.
  intros answer. subst answer. unfold summarize_chunk_wrapper, isinstance.
  cbn [mbind result_bind try_except].
  repeat split.
  - intros ->. reflexivity.
  - intros ->. reflexivity.
  - intros -> code Hcode. unfold response_status_code. rewrite Hcode.
    reflexivity.
  - intros -> Hcode. unfold response_status_code. rewrite Hcode.
    eexists. split; reflexivity.
  - intros ->. reflexivity.
Qed.

Lemma summarize_chunk_wrapper_error_messages_witness :
  summarize_chunk_wrapper "text" 4 9
    (Raise (mk_exn HTTPError "Server error '503 Service Unavailable'" (Some 503)))
  = Ok (JStr "Error in chunk 4: HTTP error from Ollama API. Status code: 503")
  /\
  summarize_chunk_wrapper "text" 4 9 (Raise json_decode_error)
  = Ok (JStr "Error processing chunk 4: Expecting value: line 1 column 1 (char 0)").
Proof.
  split.
  - exact (proj1 (proj2 (proj2
             (summarize_chunk_wrapper_error_messages "text" 4 9
                (mk_exn HTTPError "Server error '503 Service Unavailable'"
                   (Some 503)))))
             eq_refl 503 eq_refl).
  - exact (proj2 (proj2 (proj2 (proj2
             (summarize_chunk_wrapper_error_messages "text" 4 9
                json_decode_error))))
             eq_refl).
Defined.

(** A decoded object without "message", or whose "message" is an
    object without "content", is answered by an error string that names
    the missing key. *)
Theorem summarize_chunk_wrapper_missing_key
  (chunk : string) (chunk_id total_chunks : nat)
  (fields : list (string * json)) :
  (dict_get fields "message" = None ->
   summarize_chunk_wrapper chunk chunk_id total_chunks (Ok (JObj fields)) =
   Ok (JStr ("Error processing chunk " +:+ pretty chunk_id +:+ ": 'message'"))) /\
  (forall inner,
     dict_get fields "message" = Some (JObj inner) ->
     dict_get inner "content" = None ->
     summarize_chunk_wrapper chunk chunk_id total_chunks (Ok (JObj fields)) =
     Ok (JStr ("Error processing chunk " +:+ pretty chunk_id +:+ ": 'content'"))).
Proof.
  unfold summarize_chunk_wrapper. split.
  - intros Hm. cbn [mbind result_bind getitem]. rewrite Hm. reflexivity.
  - intros inner Hm Hc. cbn [mbind result_bind getitem]. rewrite Hm.
    cbn [mbind result_bind getitem]. rewrite Hc. reflexivity.
Qed.

Lemma summarize_chunk_wrapper_missing_key_witness :
  summarize_chunk_wrapper "text" 2 3 (Ok (JObj [("error", JStr "model not loaded")]))
  = Ok (JStr "Error processing chunk 2: 'message'").
Proof.
  apply (proj1 (summarize_chunk_wrapper_missing_key "text" 2 3
                  [("error", JStr "model not loaded")])).
  reflexivity.
Defined.

(** ** The pipeline: empty input, completion order, exceptions, load *)

Section pipeline_more.
Variable split_text : string -> list string.
Variable repr : pyval -> string.
Variable w : world.

Lemma summarize_text_parallel_complete order text :
  finishes_all order (length (split_text text)) = true ->
  summarize_text_parallel split_text repr w order text =
  Some (mk_pipeline_run
          (fst (aggregate repr w (answer <$> tasks w (split_text text))))
          (tasks w (split_text text))
          (snd (aggregate repr w (answer <$> tasks w (split_text text))))).
Proof.
  intros Hall. unfold summarize_text_parallel.
  rewrite dispatch_complete by exact Hall. cbn [mbind option_bind].
  destruct (aggregate repr w _) as [value run]. reflexivity.
Qed.

(** Whenever the pipeline returns, every chunk task has finished. *)
Lemma summarize_text_parallel_returns order text run :
  summarize_text_parallel split_text repr w order text = Some run ->
  run =
  mk_pipeline_run
    (fst (aggregate repr w (answer <$> tasks w (split_text text))))
    (tasks w (split_text text))
    (snd (aggregate repr w (answer <$> tasks w (split_text text)))).
Proof.
  unfold summarize_text_parallel, dispatch.
  destruct (gather order _) as [gathered |] eqn:Hg; [| discriminate].
  apply gather_Some in Hg. subst gathered. cbn [mbind option_bind].
  replace (processed_summaries _) with (answer <$> tasks w (split_text text)).
  - destruct (aggregate repr w _) as [value frun]. intros [= <-]. reflexivity.
  - rewrite <- (processed_summaries_returned (answer <$> tasks w (split_text text))).
    f_equal. rewrite <- list_fmap_compose. reflexivity.
Qed.
End pipeline_more.

(** A text that the splitter turns into no chunk at all is answered by
    the "no meaningful summary" sentinel, in every completion order,
    without any call to the backend. *)
Theorem pipeline_without_chunks
  (split_text : string -> list string) (repr : pyval -> string) (w : world)
  (order : list nat) (text : string) :
  split_text text = [] ->
  summarize_text_parallel split_text repr w order text =
  Some (mk_pipeline_run
          (Ok (JStr "No meaningful summary could be generated. All chunks failed processing."))
          [] None).
Proof.
  intros Hsplit.
  rewrite summarize_text_parallel_complete by (rewrite Hsplit; reflexivity).
  rewrite Hsplit. reflexivity.
Qed.

Lemma pipeline_without_chunks_witness :
  summarize_text_parallel (fixed_split []) repr_unused backend_down [] "" =
  Some (mk_pipeline_run
          (Ok (JStr "No meaningful summary could be generated. All chunks failed processing."))
          [] None).
Proof.
  apply (pipeline_without_chunks (fixed_split []) repr_unused backend_down [] "").
  reflexivity.
Defined.

(** The pipeline raises only out of the final synthesis: some chunk
    was summarized, the synthesis was started, and a final call was
    answered by a body with a true truth value for which the code
    after the loop raises.  No failure of a chunk call makes the
    pipeline raise. *)
Theorem pipeline_raises_only_from_final_body
  (split_text : string -> list string) (repr : pyval -> string) (w : world)
  (order : list nat) (text : string) (run : pipeline_run) (e : exn) :
  summarize_text_parallel split_text repr w order text = Some run ->
  returned run = Raise e ->
  exists (synthesis_run : final_run) (n : nat) (body : pyval),
    synthesis run = Some synthesis_run /\
    final_answer synthesis_run = Raise e /\
    successful_summaries (answer <$> chunk_runs run) <> [] /\
    final_reply w n = Ok body /\
    truthy body = true /\
    after_final_loop body = Raise e.
Proof.
  intros -> %summarize_text_parallel_returns. cbn [returned synthesis chunk_runs].
  unfold aggregate.
  destruct (successful_summaries _) as [| s rest] eqn:Hs; [discriminate |].
  cbn [fst snd]. intros Hr.
  pose proof Hr as Hraise. unfold generate_final_summary in Hraise.
  apply final_loop_raises in Hraise as (n & body & Hb & Ht & Ha);
    [| unfold MAX_RETRIES; lia].
  eexists _, n, body. repeat split; try eassumption. discriminate.
Qed.

Lemma pipeline_raises_only_from_final_body_witness :
  exists (n : nat) (body : pyval),
    final_reply final_body_without_message n = Ok body /\
    after_final_loop body = Raise (KeyError "message").
Proof.
  pose proof (summarize_text_parallel_complete (fixed_split ["the only chunk"])
                repr_unused final_body_without_message [0%nat]
                "the only chunk" eq_refl) as Hrun.
  destruct (pipeline_raises_only_from_final_body _ _ _ _ _ _
              (KeyError "message") Hrun)
    as (_ & n & body & _ & _ & _ & Hb & _ & Ha).
  - reflexivity.
  - exists n, body. split; [exact Hb | exact Ha].
Defined.

(** However the backend behaves, the pipeline awaits each chunk's
    summarizer between one and three times, with sleeps of 5 and then
    10 seconds between the attempts, and sends at most three requests
    for the final synthesis. *)
Theorem pipeline_request_bounds
  (split_text : string -> list string) (repr : pyval -> string) (w : world)
  (order : list nat) (text : string) (run : pipeline_run) :
  summarize_text_parallel split_text repr w order text = Some run ->
  length (chunk_runs run) = length (split_text text) /\
  Forall
    (fun chunk_run =>
       (1 <= invocations chunk_run <= 3)%nat /\
       sleeps chunk_run = take (invocations chunk_run - 1) [5; 10])
    (chunk_runs run) /\
  (forall synthesis_run,
     synthesis run = Some synthesis_run ->
     (1 <= length (requests synthesis_run) <= 3)%nat).
Proof.
  intros -> %summarize_text_parallel_returns. cbn [chunk_runs synthesis].
  split; [unfold tasks; apply length_imap |]. split.
  - apply Forall_lookup. intros i chunk_run. unfold tasks.
    rewrite list_lookup_imap.
    destruct (split_text text !! i) as [chunk |]; [| discriminate].
    cbn. intros [= <-].
    destruct (summarize_chunk_with_retry_run
                (summarize_chunk_call (chunk_reply w (i + 1)%nat) chunk (i + 1)
                   (length (split_text text)))
                (i + 1) MAX_RETRIES)
      as (count & _ & Hbudget & _ & ->); [unfold MAX_RETRIES; lia |].
    unfold MAX_RETRIES in Hbudget. cbn [invocations sleeps].
    split; [lia |].
    destruct count as [| [| [| count]]]; [reflexivity.. | lia].
  - intros synthesis_run. unfold aggregate.
    destruct (successful_summaries _); [discriminate |].
    cbn [snd]. intros [= <-]. unfold generate_final_summary.
    destruct (final_loop_requests (final_reply w)
                (combined_chunk_summaries repr (answer <$> tasks w (split_text text)))
                0 [] [])
      as (count & Hpos & Hbound & ->); [unfold MAX_RETRIES; lia |].
    unfold MAX_RETRIES in Hbound. cbn [app]. rewrite length_replicate. lia.
Qed.

Lemma pipeline_request_bounds_witness :
  exists run,
    summarize_text_parallel (fixed_split ["a"; "b"; "c"]) repr_unused
      second_chunk_times_out [2; 0; 1]%nat "abc" = Some run /\
    length (chunk_runs run) = 3%nat.
Proof.
  pose proof (summarize_text_parallel_complete (fixed_split ["a"; "b"; "c"])
                repr_unused second_chunk_times_out [2; 0; 1]%nat "abc" eq_refl)
    as Hrun.
  eexists. split; [exact Hrun |].
  exact (proj1 (pipeline_request_bounds _ _ _ _ _ _ Hrun)).
Defined.

(** ** Download and text extraction *)

Lemma prefix_spec (p : string) : forall s : string,
  String.prefix p s = true <-> exists post, s = p +:+ post.
Proof.
  induction p as [| a p IH]; intros s.
  - split; [intros _; exists s; reflexivity | destruct s; reflexivity].
  - destruct s as [| b s]; cbn [String.prefix].
    + split; [discriminate |].
      intros [post Hpost]. rewrite append_cons in Hpost. discriminate.
    + destruct (Ascii.ascii_dec a b) as [-> | Hne].
      * rewrite IH. split; intros [post Hpost]; exists post.
        -- rewrite Hpost. reflexivity.
        -- rewrite append_cons in Hpost. injection Hpost as ->. reflexivity.
      * split; [discriminate |].
        intros [post Hpost]. rewrite append_cons in Hpost.
        injection Hpost as Hab _. congruence.
Qed.

(** [contains] is the substring test. *)
Lemma contains_spec (needle : string) : forall hay : string,
  contains hay needle = true <->
  exists pre post, hay = pre +:+ needle +:+ post.
Proof.
  intros hay. split.
  - induction hay as [| a hay IH]; cbn [contains];
      intros [Hp | Hrest]%orb_prop; try discriminate.
    + apply prefix_spec in Hp as [post ->]. exists "", post. reflexivity.
    + apply prefix_spec in Hp as [post ->]. exists "", post. reflexivity.
    + destruct (IH Hrest) as (pre & post & ->).
      exists (String a pre), post. reflexivity.
  - intros (pre & post & ->).
    induction pre as [| a pre IH].
    + rewrite append_nil_l.
      destruct (needle +:+ post) eqn:Heq; cbn [contains];
        apply orb_true_intro; left; apply prefix_spec; exists post; congruence.
    + rewrite append_cons. cbn [contains]. rewrite IH. apply orb_true_r.
Qed.

Lemma append_empty (s t : string) : s +:+ t = "" -> s = "" /\ t = "".
Proof.
  destruct s as [| a s].
  - rewrite append_nil_l. intros ->. split; reflexivity.
  - rewrite append_cons. discriminate.
Qed.

Lemma concat_lines_empty (texts : list string) :
  String.concat nl texts = "" <-> texts = [] \/ texts = [""].
Proof.
  split.
  - destruct texts as [| x [| y rest]]; cbn.
    + left. reflexivity.
    + intros ->. right. reflexivity.
    + intros [_ [Hnl _]%append_empty]%append_empty. discriminate Hnl.
  - intros [-> | ->]; reflexivity.
Qed.

(** A path is returned only for an arXiv PDF address whose response
    came with a content type that has "application/pdf" in it and was
    written to disk; the path is "arxiv_paper.pdf", the file at it
    holds the body of the response, and exactly that one address was
    requested. *)
Theorem download_pdf_success
  (get : string -> result http_response) (disk : write_outcome)
  (files : gmap string string) (url path : string) :
  pdf_path (download_pdf get disk files url) = Some path ->
  path = "arxiv_paper.pdf" /\
  (exists rest, url = "https://arxiv.org/pdf/" +:+ rest) /\
  disk = Written /\
  fetched (download_pdf get disk files url) = [url] /\
  exists response ctype before after,
    get url = Ok response /\
    content_type response = Some ctype /\
    ctype = before +:+ "application/pdf" +:+ after /\
    files_after (download_pdf get disk files url) !! path =
      Some (response_content response).
Proof.
  unfold download_pdf.
  destruct (startswith url "https://arxiv.org/pdf/") eqn:Hurl;
    cbn [negb]; [| discriminate].
  destruct (get url) as [response | e]; [| discriminate].
  destruct (contains _ "application/pdf") eqn:Hct; cbn [negb]; [| discriminate].
  destruct disk as [| e [residue |]]; try discriminate.
  cbn [pdf_path fetched files_after]. intros [= <-].
  split; [reflexivity |].
  split; [apply prefix_spec; exact Hurl |].
  split; [reflexivity |]. split; [reflexivity |].
  apply contains_spec in Hct as (before & after & Hct).
  destruct (content_type response) as [ctype |] eqn:Hheader.
  - exists response, ctype, before, after.
    split; [reflexivity |]. split; [exact Hheader |].
    split; [exact Hct | apply lookup_insert_eq].
  - cbn in Hct. symmetry in Hct.
    apply append_empty in Hct as [_ [Hpdf _]%append_empty]. discriminate Hpdf.
Qed.

Lemma download_pdf_success_witness :
  files_after
    (download_pdf
       (fun _ => Ok (mk_http_response (Some "application/pdf; qs=0.001") "%PDF-1.5"))
       Written ∅ "https://arxiv.org/pdf/2401.02385") !! "arxiv_paper.pdf"
  = Some "%PDF-1.5".
Proof.
  destruct (download_pdf_success
              (fun _ => Ok (mk_http_response (Some "application/pdf; qs=0.001") "%PDF-1.5"))
              Written ∅ "https://arxiv.org/pdf/2401.02385" "arxiv_paper.pdf")
    as (_ & _ & _ & _ & response & ctype & before & after & Hget & _ & _ & Hfile).
  - reflexivity.
  - rewrite Hfile. injection Hget as <-. reflexivity.
Defined.

(** Whatever happens, a download leaves every file other than
    "arxiv_paper.pdf" as it was and requests no address other than the
    one given; an address that does not begin with
    "https://arxiv.org/pdf/" is not requested and nothing is written. *)
Theorem download_pdf_footprint
  (get : string -> result http_response) (disk : write_outcome)
  (files : gmap string string) (url : string) :
  let run := download_pdf get disk files url in
  (forall other, other <> "arxiv_paper.pdf" ->
                 files_after run !! other = files !! other) /\
  (fetched run = [] \/ fetched run = [url]) /\
  (startswith url "https://arxiv.org/pdf/" = false ->
   run = mk_download_run None files []).
Proof.
  intros run. subst run. unfold download_pdf.
  destruct (startswith url "https://arxiv.org/pdf/"); cbn [negb].
  - destruct (get url) as [response | e];
      [destruct (contains _ "application/pdf"); cbn [negb];
       [destruct disk as [| e [residue |]] |] |];
      cbn [files_after fetched];
      (split; [| split; [right; reflexivity | discriminate]]);
      intros other Hother;
      rewrite ?lookup_insert_ne, ?lookup_delete_ne by congruence;
      reflexivity.
  - cbn. split; [reflexivity |]. split; [left; reflexivity | reflexivity].
Qed.

(** The extracted text is empty exactly when the document cannot be
    opened, a page fails to give its text, or the document has no page
    or a single page without text.  A document of two or more pages
    always gives a text that is not empty. *)
Theorem extract_text_empty_iff
  (fitz_open : option string -> result (list (result string)))
  (files : gmap string string) (pdf_path : string) :
  extract_text_from_pdf fitz_open files pdf_path = "" <->
  (forall pages texts,
     fitz_open (files !! pdf_path) = Ok pages ->
     get_texts pages = Ok texts ->
     texts = [] \/ texts = [""]).
Proof.
  unfold extract_text_from_pdf.
  destruct (fitz_open (files !! pdf_path)) as [pages | e];
    cbn [mbind result_bind].
  - destruct (get_texts pages) as [texts | e] eqn:Hg; cbn [mbind result_bind].
    + rewrite concat_lines_empty. split.
      * intros H pages' texts' [= <-] Ht. rewrite Hg in Ht.
        injection Ht as <-. exact H.
      * intros H. apply (H pages texts); [reflexivity | exact Hg].
    + split; [| reflexivity].
      intros _ pages' texts' [= <-] Ht. rewrite Hg in Ht. discriminate Ht.
  - split; [intros _ pages texts; discriminate | reflexivity].
Qed.

(** ** The endpoint summarize_arxiv *)

Section endpoint_facts.
Variable split_text : string -> list string.
Variable repr : pyval -> string.
Variable fitz_open : option string -> result (list (result string)).
Variable get : string -> result http_response.
Variable disk : write_outcome.
Variable w : world.

Local Abbreviation endpoint :=
  (summarize_arxiv split_text repr fitz_open get disk w).

Lemma download_pdf_path files url path :
  pdf_path (download_pdf get disk files url) = Some path ->
  path = "arxiv_paper.pdf".
Proof.
  unfold download_pdf.
  destruct (negb (startswith url "https://arxiv.org/pdf/")); [discriminate |].
  destruct (get url) as [response | e]; [| discriminate].
  destruct (negb (contains _ "application/pdf")); [discriminate |].
  destruct disk as [| e [residue |]]; try discriminate.
  intros [= <-]. reflexivity.
Qed.

(** An address that does not begin with "https://arxiv.org/pdf/" is
    answered by the download error; nothing is requested, no file is
    touched and the summarization pipeline is not run. *)
Theorem summarize_arxiv_rejects_other_urls
  (order : list nat) (files : gmap string string) (url : string) :
  startswith url "https://arxiv.org/pdf/" = false ->
  endpoint order files url =
  Some (mk_endpoint_run
          (JObj [("error", JStr "Failed to download PDF. Check the URL.")])
          (mk_download_run None files []) None).
Proof.
  intros Hurl. unfold summarize_arxiv, download_pdf. rewrite Hurl. reflexivity.
Qed.

(** The endpoint raises nothing.  Its response is the download error
    when no file was downloaded, the "No text extracted" error when
    the extracted text is empty, the "Failed to process PDF" error when
    the pipeline raised, and otherwise the value the pipeline returned
    under the key "summary"; the pipeline is run in the last two cases
    only. *)
Theorem summarize_arxiv_responses
  (order : list nat) (files : gmap string string) (url : string)
  (run : endpoint_run) :
  endpoint order files url = Some run ->
  download run = download_pdf get disk files url /\
  ((pdf_path (download run) = None /\ pipeline_of run = None /\
    response run = JObj [("error", JStr "Failed to download PDF. Check the URL.")]) \/
   (pdf_path (download run) = Some "arxiv_paper.pdf" /\
    extract_text_from_pdf fitz_open (files_after (download run))
      "arxiv_paper.pdf" = "" /\
    pipeline_of run = None /\
    response run = JObj [("error", JStr "No text extracted from PDF")]) \/
   (exists pipeline_run,
      pipeline_of run = Some pipeline_run /\
      summarize_text_parallel split_text repr w order
        (extract_text_from_pdf fitz_open (files_after (download run))
           "arxiv_paper.pdf") = Some pipeline_run /\
      ((exists e, returned pipeline_run = Raise e /\
                  response run = JObj [("error", JStr "Failed to process PDF")]) \/
       (exists summary, returned pipeline_run = Ok summary /\
                        response run = JObj [("summary", summary)])))).
Proof.
  unfold summarize_arxiv.
  destruct (pdf_path (download_pdf get disk files url)) as [path |] eqn:Hpath.
  - apply download_pdf_path in Hpath as Hname. subst path.
    cbn [String.eqb Ascii.eqb Bool.eqb].
    destruct (String.eqb (extract_text_from_pdf _ _ _) "") eqn:Htext.
    + intros [= <-]. cbn [download pipeline_of response].
      split; [reflexivity |]. right. left.
      apply String.eqb_eq in Htext. repeat split; assumption.
    + destruct (summarize_text_parallel _ _ _ _ _) as [pipeline_run |] eqn:Hrun;
        [| discriminate].
      cbn [mbind option_bind]. intros [= <-].
      cbn [download pipeline_of response].
      split; [reflexivity |]. right. right.
      exists pipeline_run. split; [reflexivity |]. split; [exact Hrun |].
      destruct (returned pipeline_run) as [summary | e]; eauto.
  - intros [= <-]. cbn [download pipeline_of response].
    split; [reflexivity |]. left. repeat split. exact Hpath.
Qed.

(** A run of the endpoint in which the pipeline was run answers with
    what the pipeline returned or raised. *)
Lemma summarize_arxiv_run_pipeline order files url run pipeline_run :
  endpoint order files url = Some run ->
  pipeline_of run = Some pipeline_run ->
  exists text,
    summarize_text_parallel split_text repr w order text = Some pipeline_run /\
    response run =
    match returned pipeline_run with
    | Ok summary => JObj [("summary", summary)]
    | Raise e => JObj [("error", JStr "Failed to process PDF")]
    end.
Proof.
  unfold summarize_arxiv.
  destruct (pdf_path (download_pdf get disk files url)) as [path |];
    [| intros [= <-]; discriminate].
  destruct (String.eqb path ""); [intros [= <-]; discriminate |].
  destruct (String.eqb (extract_text_from_pdf _ _ _) "");
    [intros [= <-]; discriminate |].
  destruct (summarize_text_parallel _ _ _ _ _) as [p |] eqn:Hrun;
    [| discriminate].
  cbn [mbind option_bind]. intros [= <-]. cbn [pipeline_of response].
  intros [= <-]. eexists. split; [exact Hrun | reflexivity].
Qed.

(** When every chunk outcome is an error string, the client is
    answered with the "no meaningful summary" sentinel under the key
    "summary": the total failure of the backend is not an "error"
    response. *)
Theorem summarize_arxiv_sentinel_is_summary
  (order : list nat) (files : gmap string string) (url : string)
  (run : endpoint_run) (pipeline_run : pipeline_run) :
  endpoint order files url = Some run ->
  pipeline_of run = Some pipeline_run ->
  forallb is_error_string (answer <$> chunk_runs pipeline_run) = true ->
  response run =
  JObj [("summary",
         JStr "No meaningful summary could be generated. All chunks failed processing.")].
Proof.
  intros Hrun Hp Hall.
  destruct (summarize_arxiv_run_pipeline order files url run pipeline_run Hrun Hp)
    as (text & Hpipe & Hresp).
  apply summarize_text_parallel_returns in Hpipe. subst pipeline_run.
  cbn [chunk_runs returned] in Hall, Hresp.
  unfold aggregate in Hresp.
  rewrite successful_summaries_nil in Hresp by exact Hall.
  exact Hresp.
Qed.

(** A document of two or more pages is always passed on to the
    summarization pipeline, blank pages included: the line breaks
    between the pages make its text non-empty. *)
Theorem summarize_arxiv_blank_pages
  (order : list nat) (files : gmap string string) (url : string)
  (response_got : http_response) (pages : list (result string))
  (texts : list string) (run : endpoint_run) :
  pdf_path (download_pdf get disk files url) = Some "arxiv_paper.pdf" ->
  get url = Ok response_got ->
  fitz_open (Some (response_content response_got)) = Ok pages ->
  get_texts pages = Ok texts ->
  (2 <= length texts)%nat ->
  endpoint order files url = Some run ->
  exists pipeline_run,
    pipeline_of run = Some pipeline_run /\
    summarize_text_parallel split_text repr w order (String.concat nl texts) =
    Some pipeline_run.
Proof.
  intros Hpath Hget Hopen Htexts Hlen.
  assert (files_after (download_pdf get disk files url) !! "arxiv_paper.pdf" =
          Some (response_content response_got)) as Hfile.
  { revert Hpath. unfold download_pdf. rewrite Hget.
    destruct (negb (startswith url "https://arxiv.org/pdf/")); [discriminate |].
    destruct (negb (contains _ "application/pdf")); [discriminate |].
    destruct disk as [| e [residue |]]; try discriminate.
    intros _. apply lookup_insert_eq. }
  assert (extract_text_from_pdf fitz_open
            (files_after (download_pdf get disk files url)) "arxiv_paper.pdf" =
          String.concat nl texts) as Htext.
  { unfold extract_text_from_pdf. rewrite Hfile, Hopen.
    cbn [mbind result_bind]. rewrite Htexts. reflexivity. }
  assert (String.concat nl texts <> "") as Hne.
  { intros [-> | ->]%concat_lines_empty; cbn in Hlen; lia. }
  unfold summarize_arxiv. rewrite Hpath. cbn [String.eqb Ascii.eqb Bool.eqb].
  rewrite Htext.
  destruct (String.eqb_spec (String.concat nl texts) "") as [Heq | _];
    [contradiction |].
  destruct (summarize_text_parallel _ _ _ _ _) as [pipeline_run |] eqn:Hrun;
    [| discriminate].
  cbn [mbind option_bind]. intros [= <-]. exists pipeline_run.
  split; reflexivity.
Qed.

(** The whole way: an arXiv PDF is downloaded and written, its text
    is extracted and split, every chunk call and the first final call
    are answered at the first attempt by a body whose "message" has a
    string "content", whatever else the body holds, no chunk summary
    beginning with "Error"; the client is then answered with the
    content of the final reply, as it is, under the key "summary". *)
Theorem summarize_arxiv_end_to_end
  (order : list nat) (files : gmap string string) (url : string)
  (response_got : http_response) (pages : list (result string))
  (texts : list string) (final_body final_message : pyval) (final : string) :
  startswith url "https://arxiv.org/pdf/" = true ->
  get url = Ok response_got ->
  contains (default "" (content_type response_got)) "application/pdf" = true ->
  disk = Written ->
  fitz_open (Some (response_content response_got)) = Ok pages ->
  get_texts pages = Ok texts ->
  String.concat nl texts <> "" ->
  split_text (String.concat nl texts) <> [] ->
  finishes_all order (length (split_text (String.concat nl texts))) = true ->
  (forall i chunk,
     split_text (String.concat nl texts) !! i = Some chunk ->
     exists body message s,
       chunk_reply w (i + 1)%nat (chunk_payload chunk) 0%nat = Ok body /\
       getitem body "message" = Ok message /\
       getitem message "content" = Ok (JStr s) /\
       startswith s "Error" = false) ->
  final_reply w 0%nat = Ok final_body ->
  getitem final_body "message" = Ok final_message ->
  getitem final_message "content" = Ok (JStr final) ->
  exists run,
    endpoint order files url = Some run /\
    response run = JObj [("summary", JStr final)] /\
    files_after (download run) !! "arxiv_paper.pdf" =
      Some (response_content response_got).
Proof.
  intros Hurl Hget Hct Hdisk Hopen Htexts Hne Hchunks Hall Hfirst Hfinal Hfm Hfc.
  unfold summarize_arxiv, download_pdf.
  rewrite Hurl, Hget, Hct, Hdisk.
  cbn [negb pdf_path files_after String.eqb Ascii.eqb Bool.eqb].
  unfold extract_text_from_pdf. rewrite lookup_insert_eq, Hopen.
  cbn [mbind result_bind]. rewrite Htexts. cbn [mbind result_bind].
  destruct (String.eqb_spec (String.concat nl texts) "") as [Heq | _];
    [contradiction |].
  destruct (all_first_attempts_succeed split_text repr w order
              (String.concat nl texts) final final_body final_message
              Hchunks Hall Hfirst Hfinal Hfm Hfc)
    as (pipeline_run & -> & Hreturned & _).
  cbn [mbind option_bind]. rewrite Hreturned.
  eexists. split; [reflexivity |].
  cbn [response download files_after]. split; [reflexivity |].
  apply lookup_insert_eq.
Qed.
End endpoint_facts.

Lemma summarize_arxiv_rejects_other_urls_witness :
  response <$>
    summarize_arxiv (fixed_split ["a"]) repr_unused one_page pdf_server Written
      backend_up [0%nat] ∅ "http://localhost:11434/api/chat" =
  Some (JObj [("error", JStr "Failed to download PDF. Check the URL.")]).
Proof.
  rewrite (summarize_arxiv_rejects_other_urls (fixed_split ["a"]) repr_unused
             one_page pdf_server Written backend_up [0%nat] ∅
             "http://localhost:11434/api/chat").
  - reflexivity.
  - reflexivity.
Defined.

Lemma summarize_arxiv_responses_witness :
  exists run,
    summarize_arxiv (fixed_split ["the only chunk"]) repr_unused one_page
      pdf_server Written final_body_without_message [0%nat] ∅ arxiv_url =
    Some run /\
    download run = download_pdf pdf_server Written ∅ arxiv_url /\
    response run = JObj [("error", JStr "Failed to process PDF")].
Proof.
  eexists. split; [reflexivity |].
  split; [| reflexivity].
  exact (proj1 (summarize_arxiv_responses (fixed_split ["the only chunk"])
                  repr_unused one_page pdf_server Written
                  final_body_without_message [0%nat] ∅ arxiv_url _ eq_refl)).
Defined.

Lemma summarize_arxiv_sentinel_is_summary_witness :
  response <$>
    summarize_arxiv (fixed_split ["the only chunk"]) repr_unused one_page
      pdf_server Written backend_down [0%nat] ∅ arxiv_url =
  Some (JObj [("summary",
               JStr "No meaningful summary could be generated. All chunks failed processing.")]).
Proof.
  destruct (summarize_arxiv (fixed_split ["the only chunk"]) repr_unused
              one_page pdf_server Written backend_down [0%nat] ∅ arxiv_url)
    as [run |] eqn:Hrun; [| vm_compute in Hrun; discriminate Hrun].
  cbn [fmap option_fmap option_map]. f_equal.
  assert (exists p, pipeline_of run = Some p /\
                    forallb is_error_string (answer <$> chunk_runs p) = true)
    as (p & Hp & Hall).
  { vm_compute in Hrun. injection Hrun as <-. eexists. split; reflexivity. }
  exact (summarize_arxiv_sentinel_is_summary _ _ _ _ _ _ _ _ _ run p Hrun Hp Hall).
Defined.

Lemma summarize_arxiv_blank_pages_witness :
  exists run pipeline_run,
    summarize_arxiv (fixed_split [nl]) repr_unused two_blank_pages pdf_server
      Written backend_up [0%nat] ∅ arxiv_url = Some run /\
    pipeline_of run = Some pipeline_run.
Proof.
  destruct (summarize_arxiv (fixed_split [nl]) repr_unused two_blank_pages
              pdf_server Written backend_up [0%nat] ∅ arxiv_url)
    as [run |] eqn:Hrun; [| vm_compute in Hrun; discriminate Hrun].
  destruct (summarize_arxiv_blank_pages (fixed_split [nl]) repr_unused
              two_blank_pages pdf_server Written backend_up [0%nat] ∅ arxiv_url
              (mk_http_response (Some "application/pdf") "%PDF-1.5")
              [Ok ""; Ok ""] [""; ""] run)
    as (pipeline_run & Hp & _);
    [reflexivity | reflexivity | reflexivity | reflexivity | cbn; lia
    | exact Hrun |].
  exists run, pipeline_run. split; [reflexivity | exact Hp].
Defined.

Lemma summarize_arxiv_end_to_end_witness :
  exists run,
    summarize_arxiv (fixed_split ["the only chunk"]) repr_unused one_page
      pdf_server Written echo_backend [0%nat] ∅ arxiv_url = Some run /\
    response run = JObj [("summary", JStr "final document")].
Proof.
  destruct (summarize_arxiv_end_to_end (fixed_split ["the only chunk"])
              repr_unused one_page pdf_server Written echo_backend [0%nat] ∅
              arxiv_url (mk_http_response (Some "application/pdf") "%PDF-1.5")
              [Ok "the only chunk"] ["the only chunk"]
              (ollama_body "final document")
              (JObj [("role", JStr "assistant");
                     ("content", JStr "final document")])
              "final document")
    as (run & Hrun & Hresp & _);
    try reflexivity; try discriminate.
  - intros i chunk _.
    exists (ollama_body (user_content (chunk_payload chunk))),
      (JObj [("role", JStr "assistant");
             ("content", JStr (user_content (chunk_payload chunk)))]),
      (user_content (chunk_payload chunk)).
    repeat split; reflexivity.
  - exists run. split; [exact Hrun | exact Hresp].
Defined.
